(** * Melbourne house-price form (app.py): a shallow embedding

    The Streamlit script [app.py] loads four joblib artifacts and a text
    file, renders a form, assembles a one-row table from the form fields,
    asks two regression pipelines for a prediction and displays the
    numbers.  The embedding below follows the script function by function:
    [load_models], [predict_price] and [main].

    - Python values: integers are [Z], numpy/Python floats are the IEEE
      binary64 numbers of [PrimFloat], [str] is [string] (a sequence of
      code points below 256), [None] is [option]'s [None].
    - Effects: a script run is a computation [M A] that reads the
      resource cache, may raise, and emits an ordered list of events
      (elements put on the page, file accesses, calls of a pipeline).
    - Exceptions: [exn] stands for an instance of Python's [Exception];
      [except Exception] therefore handles every [exn].  Interpreter
      signals that derive from [BaseException] only are not modelled.
    - The Streamlit widgets and the loaded artifacts are external: widgets
      are operations of the class [Streamlit] (their documented range
      contract is the class [StreamlitSpec]); an artifact is known by how
      it answers the two operations the script performs on it. *)

From Stdlib Require Import ZArith List String Ascii Bool Floats Lia.
From Stdlib Require Import DecimalString DecimalPos DecimalZ.
Import ListNotations.

Set Warnings "-inexact-float".
Set Implicit Arguments.

Local Open Scope string_scope.
Local Open Scope Z_scope.

(* ------------------------------------------------------------------ *)
(** ** Python values *)

(** An instance of [Exception]: its class name and [str(e)]. *)
Record exn : Type := mkExn { exn_class : string; exn_str : string }.

Inductive result (A : Type) : Type :=
| Ok (a : A)
| Raise (e : exn).
Arguments Ok {A} a.
Arguments Raise {A} e.

Definition TypeError (msg : string) : exn := mkExn "TypeError" msg.
Definition ValueError (msg : string) : exn := mkExn "ValueError" msg.
Definition OverflowError (msg : string) : exn := mkExn "OverflowError" msg.
Definition IndexError (msg : string) : exn := mkExn "IndexError" msg.

(** *** str *)

(** [str.isspace] on one code point (below 256): TAB..CR, FS..US, space,
    NEL and NBSP. *)
Definition isspace (c : ascii) : bool :=
  let n := nat_of_ascii c in
  ((9 <=? n) && (n <=? 13) || (28 <=? n) && (n <=? 32)
   || (n =? 133) || (n =? 160))%nat.

Fixpoint lstrip (s : string) : string :=
  match s with
  | EmptyString => EmptyString
  | String c s' => if isspace c then lstrip s' else s
  end.

Fixpoint rstrip (s : string) : string :=
  match s with
  | EmptyString => EmptyString
  | String c s' =>
      match rstrip s' with
      | EmptyString => if isspace c then EmptyString else String c EmptyString
      | r => String c r
      end
  end.

(** [s.strip()]: leading and trailing whitespace removed. *)
Definition strip (s : string) : string := rstrip (lstrip s).

(** [os.path.join(a, b)] for two components (POSIX). *)
Definition path_join (a b : string) : string :=
  match b with
  | String "/" _ => b
  | _ =>
      match a with
      | EmptyString => b
      | _ => if String.eqb (substring (String.length a - 1) 1 a) "/"
             then a ++ b else a ++ "/" ++ b
      end
  end.

(** *** int() and the [:,] format *)

(** [int(x)] for a float: truncation toward zero; infinities and NaN
    raise. *)
Definition int_of_float (f : float) : result Z :=
  match Prim2SF f with
  | S754_zero _ => Ok 0
  | S754_infinity _ =>
      Raise (OverflowError "cannot convert float infinity to integer")
  | S754_nan => Raise (ValueError "cannot convert float NaN to integer")
  | S754_finite s m e =>
      let v := Z.shiftl (Z.pos m) e in Ok (if s then - v else v)
  end.

(** [int(x)] where [x] is a prediction or [None]. *)
Definition py_int (x : option float) : result Z :=
  match x with
  | Some f => int_of_float f
  | None =>
      Raise (TypeError
        "int() argument must be a string, a bytes-like object or a real number, not 'NoneType'")
  end.

Fixpoint commas_rev (ds : list ascii) (k : nat) : list ascii :=
  match ds with
  | [] => []
  | d :: ds' =>
      match k with
      | O => ","%char :: d :: commas_rev ds' 2
      | S k' => d :: commas_rev ds' k'
      end
  end.

(** [f"{z:,}"]: decimal digits grouped by three. *)
Definition format_thousands (z : Z) : string :=
  let digits := list_ascii_of_string
                  (NilZero.string_of_uint (N.to_uint (Z.to_N (Z.abs z)))) in
  let body := string_of_list_ascii (rev (commas_rev (rev digits) 3)) in
  if z <? 0 then "-" ++ body else body.

(** [f"${int(x):,}"] once [int(x)] is known. *)
Definition dollars (z : Z) : string := "$" ++ format_thousands z.

(* ------------------------------------------------------------------ *)
(** ** Tables, artifacts, page elements *)

(** One cell of a [pandas.DataFrame]. *)
Inductive cell : Type :=
| CInt (z : Z)
| CFloat (f : float)
| CStr (s : string).

(** [pd.DataFrame({name: [values], ...})]: the columns in insertion order,
    each with its list of row values. *)
Definition DataFrame : Type := list (string * list cell).

Fixpoint column (df : DataFrame) (name : string) : option (list cell) :=
  match df with
  | [] => None
  | (n, vs) :: df' => if String.eqb n name then Some vs else column df' name
  end.

Definition columns (df : DataFrame) : list string := map fst df.

(** What [joblib.load] returns is opaque to the script, which performs two
    operations on it: [obj.predict(input_data)] and [obj[key]]. *)
Record artifact : Type := mkArtifact {
  art_predict : DataFrame -> result (list float);
  art_getitem : string -> result (list string)
}.

(** The files under [MODELS_DIR], by path. *)
Record filesystem : Type := mkFs {
  fs_joblib : string -> result artifact;   (* joblib.load(path) *)
  fs_text : string -> result string        (* open(path, 'r').read() *)
}.

(** A matplotlib figure, as far as the script determines it: the bars
    (tick label, extent, colour) and the text labels (height, text).
    Horizontal placement is matplotlib's layout and is left out. *)
Record figure : Type := mkFigure {
  fig_title : string;
  fig_axis_label : string;
  fig_bars : list (string * float * string);
  fig_texts : list (float * string)
}.

(** The static text blocks of the page, named by their place in the
    script (their bodies are constant strings of the source). *)
Inductive static_text : Type :=
| TxtIntro | TxtAboutModels | TxtFeatureImportance | TxtPerformance
| TxtBestInterpretation | TxtDataset | TxtMarket | TxtDisclaimer.

(** Elements a run puts on the page, in call order. *)
Inductive element : Type :=
| St_title (s : string)
| St_markdown (t : static_text)
| St_error (msg : string)
| St_tabs (names : list string)
| St_header (s : string)
| St_subheader (s : string)
| St_columns (n : nat)
| St_form (key : string)
| St_slider (label : string)
| St_number_input (label : string)
| St_selectbox (label : string) (options : list string)
| St_form_submit_button (label : string)
| St_spinner (text : string)
| St_success (msg : string)
| St_metric (label value : string)
| St_pyplot (fig : figure)
| St_info (t : static_text)
| St_image (url caption : string).

Inductive event : Type :=
| Show (e : element)
| JoblibLoad (path : string)
| OpenRead (path : string)
| Predict (input_data : DataFrame).

(** The dictionary [load_models] returns: five entries under fixed keys. *)
Record models_data : Type := mkModels {
  md_linear : artifact;          (* 'Linear Regression' *)
  md_poly : artifact;            (* 'Polynomial Regression (degree=2)' *)
  md_best_model_name : string;   (* 'best_model_name' *)
  md_preprocessor : artifact;    (* 'preprocessor' *)
  md_feature_info : artifact     (* 'feature_info' *)
}.

(* ------------------------------------------------------------------ *)
(** ** The script monad *)

(** The store of [st.cache_resource] for [load_models] (a function without
    arguments has one slot): the cached return value and the elements the
    call emitted, replayed on a hit. *)
Definition cache : Type := option (option models_data * list element).

Record outcome (A : Type) : Type := mkOutcome {
  res : result A;        (* returned value or raised exception *)
  out : list event;      (* events emitted, oldest first *)
  store : cache          (* the cache afterwards *)
}.

Definition M (A : Type) : Type := cache -> outcome A.

Definition ret {A} (a : A) : M A := fun c => mkOutcome (Ok a) [] c.

Definition bind {A B} (m : M A) (f : A -> M B) : M B :=
  fun c =>
    match m c with
    | mkOutcome (Ok a) evs c1 =>
        match f a c1 with
        | mkOutcome r evs' c2 => mkOutcome r (evs ++ evs') c2
        end
    | mkOutcome (Raise e) evs c1 => mkOutcome (Raise e) evs c1
    end.

Declare Scope script_scope.
Delimit Scope script_scope with script.
Notation "x <- m ;; k" := (bind m (fun x => k))
  (at level 61, m at next level, right associativity) : script_scope.
Notation "m ;; k" := (bind m (fun _ => k))
  (at level 61, right associativity) : script_scope.
Local Open Scope script_scope.

Definition emit (e : event) : M unit := fun c => mkOutcome (Ok tt) [e] c.
Definition st (e : element) : M unit := emit (Show e).

(** A pure operation that may raise. *)
Definition lift {A} (r : result A) : M A := fun c => mkOutcome r [] c.

(** [try: body / except Exception as e: handler(e)]. *)
Definition try_except {A} (body : M A) (handler : exn -> M A) : M A :=
  fun c =>
    match body c with
    | mkOutcome (Ok a) evs c1 => mkOutcome (Ok a) evs c1
    | mkOutcome (Raise e) evs c1 =>
        match handler e c1 with
        | mkOutcome r evs' c2 => mkOutcome r (evs ++ evs') c2
        end
    end.

Definition elements (evs : list event) : list element :=
  flat_map (fun ev => match ev with Show e => [e] | _ => [] end) evs.

(** [@st.cache_resource]: the first call runs the body and stores its
    return value with the elements it emitted; later calls return the
    stored value and replay those elements without running the body. *)
Definition cache_resource (body : M (option models_data))
  : M (option models_data) :=
  fun c =>
    match c with
    | Some (v, replay) => mkOutcome (Ok v) (map Show replay) c
    | None =>
        match body None with
        | mkOutcome (Ok v) evs _ => mkOutcome (Ok v) evs (Some (v, elements evs))
        | mkOutcome (Raise e) evs _ => mkOutcome (Raise e) evs None
        end
    end.

(* ------------------------------------------------------------------ *)
(** ** Streamlit widgets *)

(** The input widgets, read against the browser session of the run.  The
    arguments are those of the call: label, bounds, default, step. *)
Class Streamlit : Type := {
  session : Type;
  slider_int : string -> Z -> Z -> Z -> option Z -> session -> Z;
  slider_float : string -> float -> float -> float -> float -> session -> float;
  number_input : string -> Z -> Z -> Z -> Z -> session -> Z;
  selectbox : string -> list string -> session -> string;
  form_submit_button : string -> session -> bool
}.

(** The widgets' contract: a slider or number input created with a
    default inside its bounds returns a value inside its bounds; a select
    box over a non-empty list returns one of its options. *)
Class StreamlitSpec (S : Streamlit) : Prop := {
  slider_int_range : forall l lo hi v step s,
    lo <= v <= hi -> lo <= slider_int l lo hi v step s <= hi;
  slider_float_range : forall l lo hi v step s,
    PrimFloat.leb lo v = true -> PrimFloat.leb v hi = true ->
    PrimFloat.leb lo (slider_float l lo hi v step s) = true /\
    PrimFloat.leb (slider_float l lo hi v step s) hi = true;
  number_input_range : forall l lo hi v step s,
    lo <= v <= hi -> lo <= number_input l lo hi v step s <= hi;
  selectbox_member : forall l options s,
    options <> [] -> In (selectbox l options s) options
}.

(* ------------------------------------------------------------------ *)
(** ** load_models and predict_price *)

Definition MODELS_DIR : string := "./models".

Definition joblib_load (fs : filesystem) (path : string) : M artifact :=
  emit (JoblibLoad path) ;; lift (fs_joblib fs path).

Definition open_read (fs : filesystem) (path : string) : M string :=
  emit (OpenRead path) ;; lift (fs_text fs path).

(** The [try] block of [load_models]: four artifacts, then the sidecar
    file, then the dictionary. *)
Definition load_artifacts (fs : filesystem) : M (option models_data) :=
  linear_model <- joblib_load fs (path_join MODELS_DIR "linear_regression.joblib") ;;
  poly_model <- joblib_load fs
    (path_join MODELS_DIR "polynomial_regression_(degree=2).joblib") ;;
  preprocessor <- joblib_load fs (path_join MODELS_DIR "preprocessor.joblib") ;;
  feature_info <- joblib_load fs (path_join MODELS_DIR "feature_info.joblib") ;;
  content <- open_read fs (path_join MODELS_DIR "best_model_name.txt") ;;
  let best_model_name := strip content in
  ret (Some {| md_linear := linear_model;
               md_poly := poly_model;
               md_best_model_name := best_model_name;
               md_preprocessor := preprocessor;
               md_feature_info := feature_info |}).

(** The body of [load_models] (the function under the decorator). *)
Definition load_models_body (fs : filesystem) : M (option models_data) :=
  try_except
    (load_artifacts fs)
    (fun e =>
       st (St_error ("Error saat memuat model: " ++ exn_str e)) ;;
       ret None).

Definition load_models (fs : filesystem) : M (option models_data) :=
  cache_resource (load_models_body fs).

(** [prediction[0]] on the array [model.predict] returned. *)
Definition first_element (prediction : list float) : result float :=
  match prediction with
  | x :: _ => Ok x
  | [] => Raise (IndexError "index 0 is out of bounds for axis 0 with size 0")
  end.

Definition predict_price (model : artifact) (input_data : DataFrame)
  : M (option float) :=
  try_except
    (prediction <- (emit (Predict input_data) ;;
                    lift (art_predict model input_data)) ;;
     x <- lift (first_element prediction) ;;
     ret (Some x))
    (fun e =>
       st (St_error ("Error saat membuat prediksi: " ++ exn_str e)) ;;
       ret None).

(* ------------------------------------------------------------------ *)
(** ** main *)

(** The values the form's widgets returned in one run. *)
Record form_values : Type := mkForm {
  rooms : Z;
  bedrooms : Z;
  bathrooms : Z;
  car_spaces : Z;
  land_size : Z;
  building_area : Z;
  year_built : Z;
  distance : float;
  property_type : string;
  region : string;
  council : string;
  method : string;
  property_count : Z;
  submit_button : bool
}.

Definition type_options : list string := ["house"; "unit"; "townhouse"].

Definition region_options : list string :=
  ["Northern Metropolitan"; "Southern Metropolitan"; "Western Metropolitan";
   "Eastern Metropolitan"; "South-Eastern Metropolitan"; "Eastern Victoria";
   "Northern Victoria"; "Western Victoria"].

Definition council_options : list string :=
  ["Banyule"; "Bayside"; "Boroondara"; "Brimbank"; "Cardinia";
   "Casey"; "Darebin"; "Frankston"; "Glen Eira"; "Greater Dandenong";
   "Hobsons Bay"; "Hume"; "Kingston"; "Knox"; "Macedon Ranges";
   "Manningham"; "Maribyrnong"; "Maroondah"; "Melbourne"; "Melton";
   "Monash"; "Moonee Valley"; "Moreland"; "Mornington Peninsula";
   "Nillumbik"; "Port Phillip"; "Stonnington"; "Whitehorse"; "Whittlesea";
   "Yarra"; "Yarra Ranges"].

Definition method_options : list string := ["S"; "SP"; "PI"; "VB"; "SA"].

(** [pd.DataFrame({...})] of the submit branch: thirteen columns of one
    value each. *)
Definition make_input_data (f : form_values) : DataFrame :=
  [ ("Rooms", [CInt (rooms f)]);
    ("Distance", [CFloat (distance f)]);
    ("Bedroom2", [CInt (bedrooms f)]);
    ("Bathroom", [CInt (bathrooms f)]);
    ("Car", [CInt (car_spaces f)]);
    ("Landsize", [CInt (land_size f)]);
    ("BuildingArea", [CInt (building_area f)]);
    ("YearBuilt", [CInt (year_built f)]);
    ("Propertycount", [CInt (property_count f)]);
    ("Type", [CStr (property_type f)]);
    ("Method", [CStr (method f)]);
    ("Regionname", [CStr (region f)]);
    ("CouncilArea", [CStr (council f)]) ].

(** [ax.bar(names, prices, color=colors)]: the bar extents are the
    prices; a [None] among them is not a number. *)
Fixpoint bar_heights (prices : list (option float)) : result (list float) :=
  match prices with
  | [] => Ok []
  | Some p :: ps =>
      match bar_heights ps with
      | Ok hs => Ok (p :: hs)
      | Raise e => Raise e
      end
  | None :: _ =>
      Raise (TypeError "unsupported operand type(s) for +: 'int' and 'NoneType'")
  end.

(** The loop over the bars: one text per bar, at [height + 5000], reading
    [f'${int(height):,}']. *)
Fixpoint bar_texts (heights : list float) : result (list (float * string)) :=
  match heights with
  | [] => Ok []
  | height :: hs =>
      match int_of_float height with
      | Ok z =>
          match bar_texts hs with
          | Ok ts => Ok ((PrimFloat.add height 5000%float, dollars z) :: ts)
          | Raise e => Raise e
          end
      | Raise e => Raise e
      end
  end.

Fixpoint zip3 {A B C} (xs : list A) (ys : list B) (zs : list C)
  : list (A * B * C) :=
  match xs, ys, zs with
  | x :: xs', y :: ys', z :: zs' => (x, y, z) :: zip3 xs' ys' zs'
  | _, _, _ => []
  end.

(** The highlighted prediction: one comparison of the stored label. *)
Definition best_of (best_model : string) (linear_pred poly_pred : option float)
  : option float :=
  if String.eqb best_model "Linear Regression" then linear_pred else poly_pred.

(** The chart of the "Informasi Model" tab. *)
Definition importance_figure : figure :=
  let features := ["Ruangan"; "Kamar Mandi"; "Luas Bangunan"; "Jarak";
                   "Dewan_Stonnington"; "Tipe_rumah"; "Kamar Tidur";
                   "Tahun Dibangun"] in
  let importance := [0.65; 0.58; 0.52; -0.48; 0.45; 0.40; 0.38; 0.25]%float in
  let colors := map (fun x => if PrimFloat.ltb 0%float x
                              then "darkgreen" else "darkred") importance in
  {| fig_title := "Kepentingan Fitur (Regresi Linear)";
     fig_axis_label := "Dampak pada Harga";
     fig_bars := zip3 features importance colors;
     fig_texts := [] |}.

Section Main.
Context {S : Streamlit}.

Definition st_slider l lo hi v step (s : session) : M Z :=
  st (St_slider l) ;; ret (slider_int l lo hi v step s).
Definition st_slider_float l lo hi v step (s : session) : M float :=
  st (St_slider l) ;; ret (slider_float l lo hi v step s).
Definition st_number_input l lo hi v step (s : session) : M Z :=
  st (St_number_input l) ;; ret (number_input l lo hi v step s).
Definition st_selectbox l options (s : session) : M string :=
  st (St_selectbox l options) ;; ret (selectbox l options s).
Definition st_form_submit_button l (s : session) : M bool :=
  st (St_form_submit_button l) ;; ret (form_submit_button l s).

(** The block [with st.form("prediction_form")]: the widgets in call
    order.  The columns [col1], [col2] only place them on the page. *)
Definition prediction_form (s : session) : M form_values :=
  st (St_form "prediction_form") ;;
  st (St_subheader "Karakteristik Properti") ;;
  rooms <- st_slider "Jumlah Ruangan" 1 10 3 None s ;;
  bedrooms <- st_slider "Jumlah Kamar Tidur" 1 8 2 None s ;;
  bathrooms <- st_slider "Jumlah Kamar Mandi" 1 5 1 None s ;;
  car_spaces <- st_slider "Jumlah Tempat Parkir Mobil" 0 5 1 None s ;;
  land_size <- st_number_input "Luas Tanah (m²)" 50 2000 500 50 s ;;
  building_area <- st_number_input "Luas Bangunan (m²)" 50 1000 150 25 s ;;
  year_built <- st_slider "Tahun Dibangun" 1900 2023 1990 None s ;;
  st (St_subheader "Lokasi & Tipe") ;;
  distance <- st_slider_float "Jarak dari CBD (km)" 0.0 40.0 10.0 0.5 s ;;
  property_type <- st_selectbox "Tipe Properti" type_options s ;;
  region <- st_selectbox "Wilayah" region_options s ;;
  council <- st_selectbox "Daerah Dewan Kota" council_options s ;;
  method <- st_selectbox "Metode Penjualan" method_options s ;;
  property_count <- st_slider "Jumlah properti di daerah" 100 10000 5000 (Some 100) s ;;
  submit_button <- st_form_submit_button "Prediksi Harga" s ;;
  ret (mkForm rooms bedrooms bathrooms car_spaces land_size building_area
              year_built distance property_type region council method
              property_count submit_button).

(** The body of [with st.spinner(...)]: both predictions, the choice of
    the best one, the three metrics, the bar chart, the disclaimer. *)
Definition show_predictions (md : models_data) (input_data : DataFrame)
  : M unit :=
  st (St_spinner "Menghitung harga...") ;;
  linear_pred <- predict_price (md_linear md) input_data ;;
  poly_pred <- predict_price (md_poly md) input_data ;;
  let best_model := md_best_model_name md in
  let best_pred := best_of best_model linear_pred poly_pred in
  st (St_success "Prediksi Selesai!") ;;
  st (St_columns 3) ;;
  z1 <- lift (py_int linear_pred) ;;
  st (St_metric "Prediksi Regresi Linear" (dollars z1)) ;;
  z2 <- lift (py_int poly_pred) ;;
  st (St_metric "Prediksi Regresi Polinomial" (dollars z2)) ;;
  z3 <- lift (py_int best_pred) ;;
  st (St_metric ("Prediksi Model Terbaik (" ++ best_model ++ ")") (dollars z3)) ;;
  let models_list := ["Regresi Linear"; "Regresi Polinomial"] in
  let prices := [linear_pred; poly_pred] in
  let colors := ["steelblue"; "darkorange"] in
  bars <- lift (bar_heights prices) ;;
  texts <- lift (bar_texts bars) ;;
  st (St_pyplot {| fig_title := "Perbandingan Prediksi Model";
                   fig_axis_label := "Harga Prediksi (AUD $)";
                   fig_bars := zip3 models_list bars colors;
                   fig_texts := texts |}) ;;
  st (St_info TxtDisclaimer).

Definition tab1 (md : models_data) (s : session) : M unit :=
  st (St_header "Detail Properti") ;;
  st (St_columns 2) ;;
  f <- prediction_form s ;;
  if submit_button f
  then show_predictions md (make_input_data f)
  else ret tt.

Definition tab2 : M unit :=
  st (St_header "Informasi Model") ;;
  st (St_subheader "Tentang Model") ;;
  st (St_markdown TxtAboutModels) ;;
  st (St_subheader "Kepentingan Fitur") ;;
  st (St_markdown TxtFeatureImportance) ;;
  st (St_pyplot importance_figure) ;;
  st (St_subheader "Performa Model") ;;
  st (St_markdown TxtPerformance) ;;
  st (St_subheader "Interpretasi Model Terbaik (Regresi Polinomial)") ;;
  st (St_markdown TxtBestInterpretation).

Definition tab3 : M unit :=
  st (St_header "Tentang Dataset Perumahan Melbourne") ;;
  st (St_markdown TxtDataset) ;;
  st (St_image "https://images.pexels.com/photos/12526602/pexels-photo-12526602.jpeg"
               "Contoh rumah di Melbourne (gambar ilustrasi)") ;;
  st (St_subheader "Pasar Properti Melbourne") ;;
  st (St_markdown TxtMarket).

Definition main (fs : filesystem) (s : session) : M unit :=
  st (St_title "Prediksi Harga Rumah Melbourne") ;;
  st (St_markdown TxtIntro) ;;
  models_data <- load_models fs ;;
  match models_data with
  | None =>
      st (St_error
        "Gagal memuat model. Silakan periksa file model dan path direktori.")
  | Some md =>
      numerical_cols <- lift (art_getitem (md_feature_info md) "numerical_cols_used") ;;
      categorical_cols <- lift (art_getitem (md_feature_info md) "categorical_cols_used") ;;
      st (St_tabs ["Buat Prediksi"; "Informasi Model"; "Tentang Dataset"]) ;;
      tab1 md s ;;
      tab2 ;;
      tab3
  end.

(** The process serves one interaction after the other with the same
    cache; an exception ends the run of the script, not the process. *)
Fixpoint serve (interactions : list (filesystem * session)) (c : cache)
  : list event * cache :=
  match interactions with
  | [] => ([], c)
  | (fs, s) :: rest =>
      match main fs s c with
      | mkOutcome _ evs c1 =>
          let (evs', c2) := serve rest c1 in ((evs ++ evs')%list, c2)
      end
  end.

End Main.

(* ------------------------------------------------------------------ *)
(** ** A concrete front end, artifacts and files, for runs that compute *)

(** What the browser last sent for each widget, by label; [None] for a
    widget the user has not touched. *)
Record browser : Type := mkBrowser {
  sent_int : string -> option Z;
  sent_float : string -> option float;
  sent_index : string -> option nat;
  clicked : string -> bool
}.

Definition within (lo hi x : Z) : bool := (lo <=? x) && (x <=? hi).
Definition fwithin (lo hi x : float) : bool :=
  PrimFloat.leb lo x && PrimFloat.leb x hi.

#[export] Instance BrowserWidgets : Streamlit := {|
  session := browser;
  slider_int l lo hi v _ s :=
    match sent_int s l with
    | Some x => if within lo hi x then x else v
    | None => v
    end;
  slider_float l lo hi v _ s :=
    match sent_float s l with
    | Some x => if fwithin lo hi x then x else v
    | None => v
    end;
  number_input l lo hi v _ s :=
    match sent_int s l with
    | Some x => if within lo hi x then x else v
    | None => v
    end;
  selectbox l options s :=
    match sent_index s l with
    | Some i => nth i options (hd "" options)
    | None => hd "" options
    end;
  form_submit_button l s := clicked s l
|}.

(** Nothing touched, nothing clicked: every widget shows its default. *)
Definition untouched : browser :=
  mkBrowser (fun _ => None) (fun _ => None) (fun _ => None) (fun _ => false).

(** The defaults, and the submit button pressed. *)
Definition submitted : browser :=
  mkBrowser (fun _ => None) (fun _ => None) (fun _ => None) (fun _ => true).

Definition AttributeError (msg : string) : exn := mkExn "AttributeError" msg.
Definition KeyError (msg : string) : exn := mkExn "KeyError" msg.
Definition FileNotFoundError (msg : string) : exn := mkExn "FileNotFoundError" msg.

(** A pipeline whose [predict] returns the given array. *)
Definition pipeline (prediction : list float) : artifact :=
  {| art_predict := fun _ => Ok prediction;
     art_getitem := fun _ => Raise (TypeError "'Pipeline' object is not subscriptable") |}.

(** A pipeline whose [predict] rejects its input. *)
Definition broken_pipeline : artifact :=
  {| art_predict := fun _ => Raise (ValueError "columns are missing");
     art_getitem := fun _ => Raise (TypeError "'Pipeline' object is not subscriptable") |}.

(** The feature-metadata dictionary. *)
Definition feature_dict : artifact :=
  {| art_predict := fun _ => Raise (AttributeError "'dict' object has no attribute 'predict'");
     art_getitem := fun k =>
       if String.eqb k "numerical_cols_used"
       then Ok ["Rooms"; "Distance"; "Bedroom2"; "Bathroom"; "Car"; "Landsize";
                "BuildingArea"; "YearBuilt"; "Propertycount"]
       else if String.eqb k "categorical_cols_used"
       then Ok ["Type"; "Method"; "Regionname"; "CouncilArea"]
       else Raise (KeyError k) |}.

(** A models directory holding the four artifacts and the sidecar file
    with the given content. *)
Definition models_dir (linear poly : artifact) (best : string) : filesystem :=
  {| fs_joblib := fun path =>
       if String.eqb path "./models/linear_regression.joblib" then Ok linear
       else if String.eqb path "./models/polynomial_regression_(degree=2).joblib"
       then Ok poly
       else if String.eqb path "./models/preprocessor.joblib" then Ok feature_dict
       else if String.eqb path "./models/feature_info.joblib" then Ok feature_dict
       else Raise (FileNotFoundError path);
     fs_text := fun path =>
       if String.eqb path "./models/best_model_name.txt" then Ok best
       else Raise (FileNotFoundError path) |}.

(** A directory without any file. *)
Definition empty_dir : filesystem :=
  {| fs_joblib := fun path => Raise (FileNotFoundError path);
     fs_text := fun path => Raise (FileNotFoundError path) |}.

(** A models directory as the training script leaves it: two pipelines
    that answer one price each, and the name of the better one followed
    by a newline. *)
Definition linear_pipeline : artifact := pipeline [850000.75%float].
Definition poly_pipeline : artifact := pipeline [912345.5%float].

Definition newline : string := String (ascii_of_nat 10) EmptyString.

Definition trained_dir : filesystem :=
  models_dir linear_pipeline poly_pipeline
    ("Polynomial Regression (degree=2)" ++ newline).

Definition trained_models (best : string) : models_data :=
  {| md_linear := linear_pipeline;
     md_poly := poly_pipeline;
     md_best_model_name := best;
     md_preprocessor := feature_dict;
     md_feature_info := feature_dict |}.

(* ------------------------------------------------------------------ *)
(** ** Reading a run's events *)

(** The metrics shown, as (label, value), in order. *)
Definition metrics (evs : list event) : list (string * string) :=
  flat_map (fun ev => match ev with
                      | Show (St_metric l v) => [(l, v)]
                      | _ => []
                      end) evs.

(** The tables handed to a pipeline's [predict], in order. *)
Definition predicted (evs : list event) : list DataFrame :=
  flat_map (fun ev => match ev with Predict df => [df] | _ => [] end) evs.

(** The paths read from the models directory, in order. *)
Definition file_accesses (evs : list event) : list string :=
  flat_map (fun ev => match ev with
                      | JoblibLoad p | OpenRead p => [p]
                      | _ => []
                      end) evs.

(** The five files of the models directory, in loading order. *)
Definition artifact_paths : list string :=
  [ "./models/linear_regression.joblib";
    "./models/polynomial_regression_(degree=2).joblib";
    "./models/preprocessor.joblib";
    "./models/feature_info.joblib";
    "./models/best_model_name.txt" ].

(** Whether the form or a prediction shows among the events. *)
Definition form_or_prediction (ev : event) : bool :=
  match ev with
  | Predict _ => true
  | Show (St_form _) | Show (St_slider _) | Show (St_number_input _)
  | Show (St_selectbox _ _) | Show (St_form_submit_button _)
  | Show (St_metric _ _) => true
  | _ => false
  end.

Definition is_numeric (c : cell) : bool :=
  match c with
  | CInt _ | CFloat _ => true
  | CStr _ => false
  end.

(** Columns whose values are all numbers, and the others. *)
Definition numeric_columns (df : DataFrame) : list string :=
  columns (filter (fun col => forallb is_numeric (snd col)) df).
Definition categorical_columns (df : DataFrame) : list string :=
  columns (filter (fun col => negb (forallb is_numeric (snd col))) df).

(** The widget constraints on a table, column by column. *)
Definition int_column_in (df : DataFrame) (name : string) (lo hi : Z) : Prop :=
  exists z, column df name = Some [CInt z] /\ lo <= z <= hi.
Definition float_column_in (df : DataFrame) (name : string) (lo hi : float)
  : Prop :=
  exists x, column df name = Some [CFloat x] /\
            PrimFloat.leb lo x = true /\ PrimFloat.leb x hi = true.
Definition choice_column_in (df : DataFrame) (name : string)
  (options : list string) : Prop :=
  exists v, column df name = Some [CStr v] /\ In v options.

Definition widget_constraints (df : DataFrame) : Prop :=
  int_column_in df "Rooms" 1 10 /\
  int_column_in df "Bedroom2" 1 8 /\
  int_column_in df "Bathroom" 1 5 /\
  int_column_in df "Car" 0 5 /\
  int_column_in df "Landsize" 50 2000 /\
  int_column_in df "BuildingArea" 50 1000 /\
  int_column_in df "YearBuilt" 1900 2023 /\
  float_column_in df "Distance" 0.0 40.0 /\
  int_column_in df "Propertycount" 100 10000 /\
  choice_column_in df "Type" type_options /\
  choice_column_in df "Method" method_options /\
  choice_column_in df "Regionname" region_options /\
  choice_column_in df "CouncilArea" council_options.

(** "Whenever [predict] succeeds, [predict_price] returns the first
    element of its output, a finite number", for one model and table. *)
Definition returns_first_finite (model : artifact) (input_data : DataFrame)
  : Prop :=
  forall prediction,
    art_predict model input_data = Ok prediction ->
    exists x, hd_error prediction = Some x /\
              res (predict_price model input_data None) = Ok (Some x) /\
              PrimFloat.is_finite x = true.

(** A file that neither [joblib.load] nor [open] can read. *)
Definition unreadable (fs : filesystem) (path : string) : Prop :=
  (exists e, fs_joblib fs path = Raise e) /\
  (exists e, fs_text fs path = Raise e).

(** What the first tab shows before any prediction: header, columns and
    the form with its widgets. *)
Definition form_elements : list element :=
  [ St_header "Detail Properti"; St_columns 2;
    St_form "prediction_form";
    St_subheader "Karakteristik Properti";
    St_slider "Jumlah Ruangan";
    St_slider "Jumlah Kamar Tidur";
    St_slider "Jumlah Kamar Mandi";
    St_slider "Jumlah Tempat Parkir Mobil";
    St_number_input "Luas Tanah (m²)";
    St_number_input "Luas Bangunan (m²)";
    St_slider "Tahun Dibangun";
    St_subheader "Lokasi & Tipe";
    St_slider "Jarak dari CBD (km)";
    St_selectbox "Tipe Properti" type_options;
    St_selectbox "Wilayah" region_options;
    St_selectbox "Daerah Dewan Kota" council_options;
    St_selectbox "Metode Penjualan" method_options;
    St_slider "Jumlah properti di daerah";
    St_form_submit_button "Prediksi Harga" ].

(** What every run shows first, and what the two static tabs show. *)
Definition intro_elements : list element :=
  [ St_title "Prediksi Harga Rumah Melbourne"; St_markdown TxtIntro ].

Definition static_elements : list element :=
  [ St_header "Informasi Model";
    St_subheader "Tentang Model";
    St_markdown TxtAboutModels;
    St_subheader "Kepentingan Fitur";
    St_markdown TxtFeatureImportance;
    St_pyplot importance_figure;
    St_subheader "Performa Model";
    St_markdown TxtPerformance;
    St_subheader "Interpretasi Model Terbaik (Regresi Polinomial)";
    St_markdown TxtBestInterpretation;
    St_header "Tentang Dataset Perumahan Melbourne";
    St_markdown TxtDataset;
    St_image "https://images.pexels.com/photos/12526602/pexels-photo-12526602.jpeg"
             "Contoh rumah di Melbourne (gambar ilustrasi)";
    St_subheader "Pasar Properti Melbourne";
    St_markdown TxtMarket ].

Definition failure_message : string :=
  "Gagal memuat model. Silakan periksa file model dan path direktori.".

Definition tab_names : list string :=
  ["Buat Prediksi"; "Informasi Model"; "Tentang Dataset"].

(** The models directory holds the five files, and [md] is what loading
    them gives: the four artifacts and the stripped sidecar content. *)
Definition loads (fs : filesystem) (md : models_data) (content : string)
  : Prop :=
  fs_joblib fs "./models/linear_regression.joblib" = Ok (md_linear md) /\
  fs_joblib fs "./models/polynomial_regression_(degree=2).joblib" =
    Ok (md_poly md) /\
  fs_joblib fs "./models/preprocessor.joblib" = Ok (md_preprocessor md) /\
  fs_joblib fs "./models/feature_info.joblib" = Ok (md_feature_info md) /\
  fs_text fs "./models/best_model_name.txt" = Ok content /\
  md_best_model_name md = strip content.

(** The message of [int(None)]. *)
Definition int_of_None : exn :=
  TypeError
    "int() argument must be a string, a bytes-like object or a real number, not 'NoneType'".

(** The values the widgets of the form return in a session. *)
Definition form_of {S : Streamlit} (s : session) : form_values :=
  {| rooms := slider_int "Jumlah Ruangan" 1 10 3 None s;
     bedrooms := slider_int "Jumlah Kamar Tidur" 1 8 2 None s;
     bathrooms := slider_int "Jumlah Kamar Mandi" 1 5 1 None s;
     car_spaces := slider_int "Jumlah Tempat Parkir Mobil" 0 5 1 None s;
     land_size := number_input "Luas Tanah (m²)" 50 2000 500 50 s;
     building_area := number_input "Luas Bangunan (m²)" 50 1000 150 25 s;
     year_built := slider_int "Tahun Dibangun" 1900 2023 1990 None s;
     distance := slider_float "Jarak dari CBD (km)" 0.0 40.0 10.0 0.5 s;
     property_type := selectbox "Tipe Properti" type_options s;
     region := selectbox "Wilayah" region_options s;
     council := selectbox "Daerah Dewan Kota" council_options s;
     method := selectbox "Metode Penjualan" method_options s;
     property_count := slider_int "Jumlah properti di daerah" 100 10000 5000 (Some 100) s;
     submit_button := form_submit_button "Prediksi Harga" s |}.

(* ------------------------------------------------------------------ *)
(** ** Further readings of files, text and displayed amounts *)

(** Whether [load_models] can load the file at [path]: the sidecar file is
    opened as text, every other file goes through [joblib.load]. *)
Definition readable (fs : filesystem) (path : string) : bool :=
  if String.eqb path "./models/best_model_name.txt"
  then match fs_text fs path with Ok _ => true | Raise _ => false end
  else match fs_joblib fs path with Ok _ => true | Raise _ => false end.

(** The files of a list up to and including the first one that fails. *)
Fixpoint upto_first_failure (ok : string -> bool) (paths : list string)
  : list string :=
  match paths with
  | [] => []
  | p :: ps => p :: (if ok p then upto_first_failure ok ps else [])
  end.

(** A string of whitespace only. *)
Fixpoint all_space (s : string) : bool :=
  match s with
  | EmptyString => true
  | String c s' => isspace c && all_space s'
  end.

(** A reader of displayed amounts: the dollar sign, then a decimal
    integer in which grouping commas are skipped. *)
Definition not_comma (c : ascii) : bool := negb (Ascii.eqb c ","%char).

Definition remove_commas (s : string) : string :=
  string_of_list_ascii (filter not_comma (list_ascii_of_string s)).

Definition amount_of (shown : string) : option Z :=
  match shown with
  | String "$"%char r =>
      option_map Z.of_int (NilZero.int_of_string (remove_commas r))
  | _ => None
  end.

(** A models directory whose feature-metadata file holds the given
    object. *)
Definition models_dir_with (linear poly feature_info : artifact) (best : string)
  : filesystem :=
  {| fs_joblib := fun path =>
       if String.eqb path "./models/feature_info.joblib" then Ok feature_info
       else fs_joblib (models_dir linear poly best) path;
     fs_text := fs_text (models_dir linear poly best) |}.

(* ================================================================== *)
(** * Properties *)

(** ** The monad and the trace projections *)

Lemma metrics_app (a b : list event) : metrics (a ++ b) = (metrics a ++ metrics b)%list.
Proof. apply flat_map_app. Qed.

Lemma predicted_app (a b : list event) :
  predicted (a ++ b) = (predicted a ++ predicted b)%list.
Proof. apply flat_map_app. Qed.

Lemma file_accesses_app (a b : list event) :
  file_accesses (a ++ b) = (file_accesses a ++ file_accesses b)%list.
Proof. apply flat_map_app. Qed.

Lemma file_accesses_replay (els : list element) :
  file_accesses (map Show els) = [].
Proof. induction els as [|e els IH]; simpl; auto. Qed.

Lemma predicted_replay (els : list element) : predicted (map Show els) = [].
Proof. induction els as [|e els IH]; simpl; auto. Qed.

(** ** The input record *)

(** C2 (as amended): the record built per submission has thirteen named
    columns, distinct, of which nine hold numbers and four hold text. *)
Theorem input_record_fields (f : form_values) :
  List.length (columns (make_input_data f)) = 13%nat /\
  NoDup (columns (make_input_data f)) /\
  numeric_columns (make_input_data f) =
    ["Rooms"; "Distance"; "Bedroom2"; "Bathroom"; "Car"; "Landsize";
     "BuildingArea"; "YearBuilt"; "Propertycount"] /\
  categorical_columns (make_input_data f) =
    ["Type"; "Method"; "Regionname"; "CouncilArea"] /\
  List.length (numeric_columns (make_input_data f)) = 9%nat /\
  List.length (categorical_columns (make_input_data f)) = 4%nat.
Proof.
  repeat split; try reflexivity.
  unfold columns, make_input_data; simpl.
  repeat (constructor; [ simpl; intuition discriminate | ]).
  constructor.
Qed.

(** C2 (as stated) fails: on the record of the default form the numeric
    columns are not seven and the categorical ones not six. *)
Lemma input_record_not_seven_and_six :
  ~ (List.length (numeric_columns (make_input_data (form_of untouched))) = 7%nat /\
     List.length (categorical_columns (make_input_data (form_of untouched))) = 6%nat).
Proof. intros [H _]. vm_compute in H. discriminate H. Qed.

(** ** predict_price *)

Lemma predict_price_run (model : artifact) (input_data : DataFrame) (c : cache) :
  predict_price model input_data c =
  match art_predict model input_data with
  | Ok (x :: _) => mkOutcome (Ok (Some x)) [Predict input_data] c
  | Ok [] =>
      mkOutcome (Ok None)
        [Predict input_data;
         Show (St_error ("Error saat membuat prediksi: " ++
                         "index 0 is out of bounds for axis 0 with size 0"))] c
  | Raise e =>
      mkOutcome (Ok None)
        [Predict input_data;
         Show (St_error ("Error saat membuat prediksi: " ++ exn_str e))] c
  end.
Proof.
  unfold predict_price, try_except, bind, emit, lift, ret, st, emit; simpl.
  destruct (art_predict model input_data) as [[|x xs]|e]; reflexivity.
Qed.

(** [predict_price] never raises and leaves the cache alone. *)
Lemma predict_price_total (model : artifact) (input_data : DataFrame) (c : cache) :
  exists v evs, predict_price model input_data c = mkOutcome (Ok v) evs c /\
                predicted evs = [input_data] /\ file_accesses evs = [] /\
                metrics evs = [].
Proof.
  rewrite predict_price_run.
  destruct (art_predict model input_data) as [[|x xs]|e];
    eexists; eexists; repeat split; reflexivity.
Qed.

(** C4 (as amended): when [predict] succeeds with a non-empty output,
    [predict_price] returns the first element of that output as it is,
    shows nothing and leaves the cache alone. *)
Theorem predict_price_first_element
  (model : artifact) (input_data : DataFrame) (c : cache)
  (x : float) (rest : list float) :
  art_predict model input_data = Ok (x :: rest) ->
  predict_price model input_data c =
    mkOutcome (Ok (Some x)) [Predict input_data] c.
Proof.
  intros Hpredict. rewrite predict_price_run, Hpredict. reflexivity.
Qed.

Lemma predict_price_first_element_witness :
  predict_price (pipeline [912345.5%float; 1.0%float])
                (make_input_data (form_of submitted)) None =
    mkOutcome (Ok (Some 912345.5%float))
              [Predict (make_input_data (form_of submitted))] None.
Proof.
  apply (@predict_price_first_element _ _ None 912345.5%float [1.0%float]).
  reflexivity.
Defined.

(** C4 (as stated) fails: a pipeline whose [predict] succeeds with an
    empty array yields [None], and one that answers infinity yields a
    value that is not finite. *)
Lemma predict_price_not_always_finite :
  ~ returns_first_finite (pipeline []) (make_input_data (form_of submitted)) /\
  ~ returns_first_finite (pipeline [infinity])
      (make_input_data (form_of submitted)).
Proof.
  split; intros H.
  - destruct (H [] eq_refl) as [x [Hhd _]]. discriminate Hhd.
  - destruct (H [infinity] eq_refl) as [x [Hhd [_ Hfin]]].
    injection Hhd as <-. vm_compute in Hfin. discriminate Hfin.
Qed.


(** ** load_models *)

(** The [try] block, file by file: it stops at the first file that does
    not load. *)
Lemma load_artifacts_run (fs : filesystem) (c : cache) :
  load_artifacts fs c =
  match fs_joblib fs "./models/linear_regression.joblib" with
  | Raise e => mkOutcome (Raise e) (map JoblibLoad (firstn 1 artifact_paths)) c
  | Ok linear =>
  match fs_joblib fs "./models/polynomial_regression_(degree=2).joblib" with
  | Raise e => mkOutcome (Raise e) (map JoblibLoad (firstn 2 artifact_paths)) c
  | Ok poly =>
  match fs_joblib fs "./models/preprocessor.joblib" with
  | Raise e => mkOutcome (Raise e) (map JoblibLoad (firstn 3 artifact_paths)) c
  | Ok preprocessor =>
  match fs_joblib fs "./models/feature_info.joblib" with
  | Raise e => mkOutcome (Raise e) (map JoblibLoad (firstn 4 artifact_paths)) c
  | Ok feature_info =>
  match fs_text fs "./models/best_model_name.txt" with
  | Raise e =>
      mkOutcome (Raise e)
        (map JoblibLoad (firstn 4 artifact_paths) ++
         [OpenRead "./models/best_model_name.txt"]) c
  | Ok content =>
      mkOutcome
        (Ok (Some (mkModels linear poly (strip content) preprocessor feature_info)))
        (map JoblibLoad (firstn 4 artifact_paths) ++
         [OpenRead "./models/best_model_name.txt"]) c
  end end end end end.
Proof.
  unfold load_artifacts, joblib_load, open_read, bind, emit, lift, ret.
  change (path_join MODELS_DIR "linear_regression.joblib")
    with "./models/linear_regression.joblib".
  change (path_join MODELS_DIR "polynomial_regression_(degree=2).joblib")
    with "./models/polynomial_regression_(degree=2).joblib".
  change (path_join MODELS_DIR "preprocessor.joblib")
    with "./models/preprocessor.joblib".
  change (path_join MODELS_DIR "feature_info.joblib")
    with "./models/feature_info.joblib".
  change (path_join MODELS_DIR "best_model_name.txt")
    with "./models/best_model_name.txt".
  cbn [res out store app].
  destruct (fs_joblib fs "./models/linear_regression.joblib"); cbn [res out store app];
    [|reflexivity].
  destruct (fs_joblib fs "./models/polynomial_regression_(degree=2).joblib");
    cbn [res out store app]; [|reflexivity].
  destruct (fs_joblib fs "./models/preprocessor.joblib");
    cbn [res out store app]; [|reflexivity].
  destruct (fs_joblib fs "./models/feature_info.joblib");
    cbn [res out store app]; [|reflexivity].
  destruct (fs_text fs "./models/best_model_name.txt");
    cbn [res out store app]; reflexivity.
Qed.

(** The [try] block touches only files of the models directory, each at
    most once, shows nothing and leaves the cache alone. *)
Lemma load_artifacts_events (fs : filesystem) (c : cache) :
  let o := load_artifacts fs c in
  store o = c /\ elements (out o) = [] /\ predicted (out o) = [] /\
  metrics (out o) = [] /\
  exists n, file_accesses (out o) = firstn n artifact_paths.
Proof.
  cbv zeta. rewrite load_artifacts_run.
  destruct (fs_joblib fs "./models/linear_regression.joblib");
    [|repeat split; try reflexivity; exists 1%nat; reflexivity].
  destruct (fs_joblib fs "./models/polynomial_regression_(degree=2).joblib");
    [|repeat split; try reflexivity; exists 2%nat; reflexivity].
  destruct (fs_joblib fs "./models/preprocessor.joblib");
    [|repeat split; try reflexivity; exists 3%nat; reflexivity].
  destruct (fs_joblib fs "./models/feature_info.joblib");
    [|repeat split; try reflexivity; exists 4%nat; reflexivity].
  destruct (fs_text fs "./models/best_model_name.txt");
    repeat split; try reflexivity; exists 5%nat; reflexivity.
Qed.

(** A file of the models directory that cannot be read makes the [try]
    block raise. *)
Lemma load_artifacts_unreadable (fs : filesystem) (c : cache) (path : string) :
  In path artifact_paths -> unreadable fs path ->
  exists e, res (load_artifacts fs c) = Raise e.
Proof.
  intros Hin [[e1 Hj] [e2 Ht]]. rewrite load_artifacts_run.
  simpl in Hin.
  destruct (fs_joblib fs "./models/linear_regression.joblib") eqn:E1;
    [|eexists; reflexivity].
  destruct (fs_joblib fs "./models/polynomial_regression_(degree=2).joblib") eqn:E2;
    [|eexists; reflexivity].
  destruct (fs_joblib fs "./models/preprocessor.joblib") eqn:E3;
    [|eexists; reflexivity].
  destruct (fs_joblib fs "./models/feature_info.joblib") eqn:E4;
    [|eexists; reflexivity].
  destruct (fs_text fs "./models/best_model_name.txt") eqn:E5;
    [|eexists; reflexivity].
  exfalso.
  destruct Hin as [<-|[<-|[<-|[<-|[<-|[]]]]]]; congruence.
Qed.

Lemma load_models_body_run (fs : filesystem) (c : cache) :
  load_models_body fs c =
  match res (load_artifacts fs c) with
  | Ok v => load_artifacts fs c
  | Raise e =>
      mkOutcome (Ok None)
        (out (load_artifacts fs c) ++
         [Show (St_error ("Error saat memuat model: " ++ exn_str e))])
        (store (load_artifacts fs c))
  end.
Proof.
  unfold load_models_body, try_except.
  destruct (load_artifacts fs c) as [[v|e] evs c1]; reflexivity.
Qed.

(** The body never raises: it returns the dictionary or [None]. *)
Lemma load_models_body_returns (fs : filesystem) (c : cache) :
  exists v, res (load_models_body fs c) = Ok v.
Proof.
  rewrite load_models_body_run.
  destruct (res (load_artifacts fs c)) eqn:E; [rewrite E|]; eexists; reflexivity.
Qed.

Lemma load_models_miss (fs : filesystem) :
  load_models fs None =
  mkOutcome (res (load_models_body fs None)) (out (load_models_body fs None))
    (match res (load_models_body fs None) with
     | Ok v => Some (v, elements (out (load_models_body fs None)))
     | Raise _ => None
     end).
Proof.
  unfold load_models, cache_resource.
  destruct (load_models_body fs None) as [[v|e] evs c1]; reflexivity.
Qed.

(** C3: an exception raised while the artifacts load, or by a pipeline's
    [predict], is handled where it occurs: [load_models] (its body, and
    the cached function on its first call) and [predict_price] show an
    error message carrying the exception's text and return [None].  A
    file of the models directory that cannot be read is such a case. *)
Theorem failures_caught_at_call_site
  (fs : filesystem) (model : artifact) (input_data : DataFrame) (c : cache)
  (e : exn) :
  (res (load_artifacts fs c) = Raise e ->
     res (load_models_body fs c) = Ok None /\
     elements (out (load_models_body fs c)) =
       [St_error ("Error saat memuat model: " ++ exn_str e)]) /\
  (res (load_artifacts fs None) = Raise e ->
     res (load_models fs None) = Ok None /\
     elements (out (load_models fs None)) =
       [St_error ("Error saat memuat model: " ++ exn_str e)]) /\
  (forall path, In path artifact_paths -> unreadable fs path ->
     exists e', res (load_artifacts fs c) = Raise e') /\
  (art_predict model input_data = Raise e ->
     predict_price model input_data c =
       mkOutcome (Ok None)
         [Predict input_data;
          Show (St_error ("Error saat membuat prediksi: " ++ exn_str e))] c).
Proof.
  assert (Hbody : forall c0, res (load_artifacts fs c0) = Raise e ->
     res (load_models_body fs c0) = Ok None /\
     elements (out (load_models_body fs c0)) =
       [St_error ("Error saat memuat model: " ++ exn_str e)]).
  { intros c0 Hraise. rewrite load_models_body_run, Hraise. split; [reflexivity|].
    cbn [out]. unfold elements. rewrite flat_map_app.
    destruct (load_artifacts_events fs c0) as [_ [Hel _]].
    unfold elements in Hel. rewrite Hel. reflexivity. }
  split; [apply Hbody|].
  split; [intros Hraise; rewrite load_models_miss; apply (Hbody None Hraise)|].
  split.
  - intros path Hin Hun. eapply load_artifacts_unreadable; eassumption.
  - intros Hraise. rewrite predict_price_run, Hraise. reflexivity.
Qed.

Lemma failures_caught_at_call_site_witness :
  res (load_models empty_dir None) = Ok None /\
  elements (out (load_models empty_dir None)) =
    [St_error ("Error saat memuat model: " ++
               "./models/linear_regression.joblib")] /\
  predict_price broken_pipeline (make_input_data (form_of submitted)) None =
    mkOutcome (Ok None)
      [Predict (make_input_data (form_of submitted));
       Show (St_error ("Error saat membuat prediksi: " ++ "columns are missing"))]
      None.
Proof.
  pose proof (@failures_caught_at_call_site empty_dir broken_pipeline
                (make_input_data (form_of submitted)) None
                (FileNotFoundError "./models/linear_regression.joblib")) as H.
  destruct H as [_ [Hload _]].
  pose proof (@failures_caught_at_call_site empty_dir broken_pipeline
                (make_input_data (form_of submitted)) None
                (ValueError "columns are missing")) as H'.
  destruct H' as [_ [_ [_ Hpredict]]].
  destruct (Hload eq_refl) as [H1 H2].
  split; [exact H1|]. split; [exact H2|].
  exact (Hpredict eq_refl).
Defined.

(** A first call with all five files readable: the dictionary, the five
    accesses in order, and the dictionary stored in the cache. *)
Lemma load_models_fresh (fs : filesystem) (md : models_data) (content : string) :
  loads fs md content ->
  load_models fs None =
    mkOutcome (Ok (Some md))
      (map JoblibLoad (firstn 4 artifact_paths) ++
       [OpenRead "./models/best_model_name.txt"])
      (Some (Some md, [])).
Proof.
  intros (H1 & H2 & H3 & H4 & H5 & Hname).
  rewrite load_models_miss, load_models_body_run, load_artifacts_run.
  rewrite H1, H2, H3, H4, H5. cbn [res out store].
  destruct md as [l p b pre fi]. cbn in Hname. subst b. reflexivity.
Qed.

(** What a call of [load_models] can do: it never raises and predicts
    nothing; on a hit it reads no file and keeps the cache; on a miss it
    reads a prefix of the five files and fills the cache. *)
Lemma load_models_events (fs : filesystem) (c : cache) :
  (exists v, res (load_models fs c) = Ok v) /\
  predicted (out (load_models fs c)) = [] /\
  (c <> None ->
     file_accesses (out (load_models fs c)) = [] /\
     store (load_models fs c) = c) /\
  (c = None ->
     store (load_models fs c) <> None /\
     metrics (out (load_models fs c)) = [] /\
     existsb form_or_prediction (out (load_models fs c)) = false /\
     exists n, file_accesses (out (load_models fs c)) = firstn n artifact_paths).
Proof.
  destruct c as [[v replay]|].
  - unfold load_models, cache_resource. cbn [res out store].
    split; [eexists; reflexivity|].
    split; [apply predicted_replay|].
    split; [intros _; split; [apply file_accesses_replay|reflexivity]|].
    intros H; discriminate H.
  - rewrite load_models_miss, load_models_body_run.
    destruct (load_artifacts_events fs None) as (Hst & Hel & Hpred & Hmet & n & Hfiles).
    assert (Hform : existsb form_or_prediction (out (load_artifacts fs None)) = false).
    { rewrite load_artifacts_run.
      repeat match goal with
             | |- context [match ?r with Ok _ => _ | Raise _ => _ end] =>
                 destruct r
             end; reflexivity. }
    destruct (res (load_artifacts fs None)) eqn:E; cbn [res out store].
    + rewrite E. split; [eexists; reflexivity|].
      split; [assumption|].
      split; [intros H; contradiction|].
      intros _. repeat split; try assumption; try discriminate.
      exists n; assumption.
    + split; [eexists; reflexivity|].
      rewrite predicted_app, Hpred.
      split; [reflexivity|].
      split; [intros H; contradiction|].
      intros _. split; [discriminate|].
      rewrite metrics_app, Hmet. split; [reflexivity|].
      rewrite existsb_app, Hform. split; [reflexivity|].
      exists n. rewrite file_accesses_app, Hfiles. apply app_nil_r.
Qed.

(** ** The form and the submit branch *)

Ltac script_unfold :=
  cbv beta iota zeta delta
    [bind st emit lift ret try_except
     st_slider st_slider_float st_number_input st_selectbox
     st_form_submit_button].

Section Page.
Context {S : Streamlit}.

(** The form returns what its widgets return, shows only widgets and
    leaves the cache alone. *)
Lemma prediction_form_run (s : session) (c : cache) :
  exists evs,
    prediction_form s c = mkOutcome (Ok (form_of s)) evs c /\
    predicted evs = [] /\ metrics evs = [] /\ file_accesses evs = [].
Proof.
  eexists. split.
  - unfold prediction_form. script_unfold. reflexivity.
  - repeat split; reflexivity.
Qed.

Lemma py_int_best (name : string) (x y : float) (zx zy : Z) :
  int_of_float x = Ok zx -> int_of_float y = Ok zy ->
  py_int (best_of name (Some x) (Some y)) =
    Ok (if String.eqb name "Linear Regression" then zx else zy).
Proof.
  intros Hx Hy. unfold best_of.
  destruct (String.eqb name "Linear Regression"); simpl; assumption.
Qed.

(** The submit branch when both pipelines answer with numbers that
    [int] accepts: the events, one by one. *)
Lemma show_predictions_ok (md : models_data) (input_data : DataFrame) (c : cache)
  (x y : float) (xs ys : list float) (zx zy : Z) :
  art_predict (md_linear md) input_data = Ok (x :: xs) ->
  art_predict (md_poly md) input_data = Ok (y :: ys) ->
  int_of_float x = Ok zx -> int_of_float y = Ok zy ->
  show_predictions md input_data c =
    mkOutcome (Ok tt)
      [ Show (St_spinner "Menghitung harga...");
        Predict input_data;
        Predict input_data;
        Show (St_success "Prediksi Selesai!");
        Show (St_columns 3);
        Show (St_metric "Prediksi Regresi Linear" (dollars zx));
        Show (St_metric "Prediksi Regresi Polinomial" (dollars zy));
        Show (St_metric
                ("Prediksi Model Terbaik (" ++ md_best_model_name md ++ ")")
                (dollars (if String.eqb (md_best_model_name md) "Linear Regression"
                          then zx else zy)));
        Show (St_pyplot
                {| fig_title := "Perbandingan Prediksi Model";
                   fig_axis_label := "Harga Prediksi (AUD $)";
                   fig_bars := [("Regresi Linear", x, "steelblue");
                                ("Regresi Polinomial", y, "darkorange")];
                   fig_texts := [(PrimFloat.add x 5000%float, dollars zx);
                                 (PrimFloat.add y 5000%float, dollars zy)] |});
        Show (St_info TxtDisclaimer) ] c.
Proof.
  intros Hx Hy Hzx Hzy.
  unfold show_predictions. script_unfold.
  rewrite predict_price_run, Hx. cbv beta iota.
  rewrite predict_price_run, Hy. cbv beta iota.
  rewrite (@py_int_best _ _ _ _ _ Hzx Hzy).
  cbn [py_int bar_heights bar_texts]. rewrite Hzx, Hzy.
  reflexivity.
Qed.

(** Whatever the pipelines answer, the submit branch calls [predict]
    twice on the same table, reads no file and leaves the cache alone. *)
Lemma show_predictions_events (md : models_data) (input_data : DataFrame)
  (c : cache) :
  store (show_predictions md input_data c) = c /\
  predicted (out (show_predictions md input_data c)) = [input_data; input_data] /\
  file_accesses (out (show_predictions md input_data c)) = [].
Proof.
  unfold show_predictions. script_unfold.
  rewrite predict_price_run.
  destruct (art_predict (md_linear md) input_data) as [[|x xs]|e1];
    cbv beta iota; rewrite predict_price_run;
    destruct (art_predict (md_poly md) input_data) as [[|y ys]|e2];
    cbv beta iota; unfold best_of;
    destruct (String.eqb (md_best_model_name md) "Linear Regression");
    cbn [py_int bar_heights bar_texts];
    try (repeat split; reflexivity);
    try (destruct (int_of_float x) as [zx|ex]);
    try (destruct (int_of_float y) as [zy|ey]);
    cbn [py_int bar_heights bar_texts];
    repeat split; reflexivity.
Qed.

(** The first tab: header, columns, the form, and on submit the
    predictions for the table built from the form. *)
Lemma tab1_run (md : models_data) (s : session) (c : cache) :
  tab1 md s c =
    if form_submit_button "Prediksi Harga" s
    then match show_predictions md (make_input_data (form_of s)) c with
         | mkOutcome r evs c2 => mkOutcome r (map Show form_elements ++ evs) c2
         end
    else mkOutcome (Ok tt) (map Show form_elements) c.
Proof.
  unfold tab1, prediction_form. script_unfold.
  change (submit_button _) with (form_submit_button "Prediksi Harga" s).
  fold (form_of s).
  destruct (form_submit_button "Prediksi Harga" s).
  - destruct (show_predictions md (make_input_data (form_of s)) c)
      as [r evs c2]. reflexivity.
  - reflexivity.
Qed.

(** One run of the script, step by step: the title, [load_models], the
    two look-ups in the feature metadata, the tabs. *)
Lemma main_run (fs : filesystem) (s : session) (c : cache) :
  main fs s c =
  match load_models fs c with
  | mkOutcome (Raise e) evs c1 =>
      mkOutcome (Raise e) (map Show intro_elements ++ evs) c1
  | mkOutcome (Ok None) evs c1 =>
      mkOutcome (Ok tt)
        (map Show intro_elements ++ evs ++ [Show (St_error failure_message)]) c1
  | mkOutcome (Ok (Some md)) evs c1 =>
      match art_getitem (md_feature_info md) "numerical_cols_used" with
      | Raise e => mkOutcome (Raise e) (map Show intro_elements ++ evs) c1
      | Ok _ =>
      match art_getitem (md_feature_info md) "categorical_cols_used" with
      | Raise e => mkOutcome (Raise e) (map Show intro_elements ++ evs) c1
      | Ok _ =>
          match tab1 md s c1 with
          | mkOutcome (Raise e) evs1 c2 =>
              mkOutcome (Raise e)
                (map Show intro_elements ++ evs ++ Show (St_tabs tab_names) :: evs1)
                c2
          | mkOutcome (Ok _) evs1 c2 =>
              mkOutcome (Ok tt)
                (map Show intro_elements ++ evs ++ Show (St_tabs tab_names) ::
                 evs1 ++ map Show static_elements)
                c2
          end
      end end
  end.
Proof.
  unfold main, tab2, tab3. script_unfold.
  destruct (load_models fs c) as [[[md|]|e] evs c1]; cbv beta iota.
  - destruct (art_getitem (md_feature_info md) "numerical_cols_used");
      cbv beta iota; [|rewrite app_nil_r; reflexivity].
    destruct (art_getitem (md_feature_info md) "categorical_cols_used");
      cbv beta iota; [|rewrite !app_nil_r; reflexivity].
    destruct (tab1 md s c1) as [[[]|e] evs1 c2]; cbv beta iota.
    + reflexivity.
    + reflexivity.
  - reflexivity.
  - reflexivity.
Qed.

(** C1: on a form submission whose two predictions are shown, three
    metrics appear, and the third, labelled with the stored best-model
    name, carries the Linear Regression prediction when that name equals
    'Linear Regression' and the Polynomial Regression prediction
    otherwise. *)
Theorem best_prediction_chosen_by_label
  (md : models_data) (s : session) (c : cache)
  (x y : float) (xs ys : list float) (zx zy : Z) :
  form_submit_button "Prediksi Harga" s = true ->
  art_predict (md_linear md) (make_input_data (form_of s)) = Ok (x :: xs) ->
  art_predict (md_poly md) (make_input_data (form_of s)) = Ok (y :: ys) ->
  int_of_float x = Ok zx ->
  int_of_float y = Ok zy ->
  res (tab1 md s c) = Ok tt /\
  metrics (out (tab1 md s c)) =
    [ ("Prediksi Regresi Linear", dollars zx);
      ("Prediksi Regresi Polinomial", dollars zy);
      ("Prediksi Model Terbaik (" ++ md_best_model_name md ++ ")",
       dollars (if String.eqb (md_best_model_name md) "Linear Regression"
                then zx else zy)) ] /\
  best_of (md_best_model_name md) (Some x) (Some y) =
    (if String.eqb (md_best_model_name md) "Linear Regression"
     then Some x else Some y).
Proof.
  intros Hsubmit Hx Hy Hzx Hzy.
  rewrite tab1_run, Hsubmit.
  rewrite (@show_predictions_ok md _ c x y xs ys zx zy Hx Hy Hzx Hzy).
  cbn [res out]. repeat split.
Qed.

(** C5: when [predict_price] returned [None] for one of the two models,
    the display code still runs (the success message is shown), and the
    operations it applies to the predictions, the [int] conversion and
    the arithmetic of the bar chart, raise on [None]: the run of the
    display code ends in an exception, [int(None)]'s TypeError when the
    linear prediction is [None].  So the display code completes only if
    both predictions are values. *)
Theorem display_needs_both_predictions
  (md : models_data) (input_data : DataFrame) (c : cache) :
  (res (predict_price (md_linear md) input_data c) = Ok None \/
   res (predict_price (md_poly md) input_data c) = Ok None ->
   In (Show (St_success "Prediksi Selesai!"))
      (out (show_predictions md input_data c)) /\
   py_int None = Raise int_of_None /\
   (forall p, exists e, bar_heights [None; p] = Raise e) /\
   (forall x, exists e, bar_heights [Some x; None] = Raise e) /\
   (exists e, res (show_predictions md input_data c) = Raise e) /\
   (res (predict_price (md_linear md) input_data c) = Ok None ->
    res (show_predictions md input_data c) = Raise int_of_None)) /\
  (res (show_predictions md input_data c) = Ok tt ->
   exists x y,
     res (predict_price (md_linear md) input_data c) = Ok (Some x) /\
     res (predict_price (md_poly md) input_data c) = Ok (Some y)).
Proof.
  unfold show_predictions. script_unfold.
  rewrite !predict_price_run.
  destruct (art_predict (md_linear md) input_data) as [[|x xs]|e1];
    cbv beta iota; rewrite ?predict_price_run;
    destruct (art_predict (md_poly md) input_data) as [[|y ys]|e2];
    cbv beta iota; unfold best_of;
    destruct (String.eqb (md_best_model_name md) "Linear Regression");
    cbn [py_int bar_heights bar_texts res out];
    try (destruct (int_of_float x) as [zx|ex]);
    try (destruct (int_of_float y) as [zy|ey]);
    cbn [py_int bar_heights bar_texts res out];
    (split;
     [ intros [H|H]; try discriminate H;
       (split; [simpl; tauto|]);
       (split; [reflexivity|]);
       (split; [intros p; eexists; reflexivity|]);
       (split; [intros x'; eexists; reflexivity|]);
       (split; [eexists; reflexivity|]);
       intros H'; try discriminate H'; reflexivity
     | intros H; try discriminate H; eexists; eexists; split; reflexivity ]).
Qed.

Lemma predicted_show (e : element) (evs : list event) :
  predicted (Show e :: evs) = predicted evs.
Proof. reflexivity. Qed.

Lemma file_accesses_show (e : element) (evs : list event) :
  file_accesses (Show e :: evs) = file_accesses evs.
Proof. reflexivity. Qed.

(** The tables a run hands to [predict]: none, or twice the table built
    from the form of this run. *)
Lemma main_predicted (fs : filesystem) (s : session) (c : cache) :
  predicted (out (main fs s c)) = [] \/
  (form_submit_button "Prediksi Harga" s = true /\
   predicted (out (main fs s c)) =
     [make_input_data (form_of s); make_input_data (form_of s)]).
Proof.
  rewrite main_run.
  destruct (load_models_events fs c) as ([v Hres] & Hpred & _).
  destruct (load_models fs c) as [r evs c1]. cbn [res out] in Hres, Hpred.
  subst r. destruct v as [md|].
  2:{ left. cbn [out]. rewrite !predicted_app, predicted_replay, Hpred.
      reflexivity. }
  destruct (art_getitem (md_feature_info md) "numerical_cols_used").
  2:{ left. cbn [out]. rewrite !predicted_app, predicted_replay, Hpred.
      reflexivity. }
  destruct (art_getitem (md_feature_info md) "categorical_cols_used").
  2:{ left. cbn [out]. rewrite !predicted_app, predicted_replay, Hpred.
      reflexivity. }
  rewrite tab1_run.
  destruct (form_submit_button "Prediksi Harga" s).
  - right. split; [reflexivity|].
    destruct (show_predictions_events md (make_input_data (form_of s)) c1)
      as (_ & Hp & _).
    destruct (show_predictions md (make_input_data (form_of s)) c1)
      as [[[]|e] evs1 c2]; cbn [out] in Hp |- *;
      rewrite !predicted_app, predicted_replay, Hpred, predicted_show,
        !predicted_app, !predicted_replay, Hp; reflexivity.
  - left. cbn [out].
    rewrite !predicted_app, predicted_replay, Hpred, predicted_show,
      !predicted_app, !predicted_replay. reflexivity.
Qed.

Lemma in_predicted (evs : list event) (df : DataFrame) :
  In (Predict df) evs <-> In df (predicted evs).
Proof.
  unfold predicted. rewrite in_flat_map. split.
  - intros H. exists (Predict df). split; [assumption|left; reflexivity].
  - intros [ev [Hin Hdf]]. destruct ev; simpl in Hdf; try contradiction.
    destruct Hdf as [->|[]]. assumption.
Qed.

(** C6: every table that reaches a pipeline in a run is the one-row
    record of that run's form: thirteen columns, each holding exactly one
    value, the value of the corresponding form field; and the form fields
    are what the widgets returned. *)
Theorem input_record_is_one_row_of_form
  (fs : filesystem) (s : session) (c : cache) (df : DataFrame) :
  In (Predict df) (out (main fs s c)) ->
  (forall c', res (prediction_form s c') = Ok (form_of s)) /\
  columns df =
    ["Rooms"; "Distance"; "Bedroom2"; "Bathroom"; "Car"; "Landsize";
     "BuildingArea"; "YearBuilt"; "Propertycount"; "Type"; "Method";
     "Regionname"; "CouncilArea"] /\
  Forall (fun col => List.length (snd col) = 1%nat) df /\
  column df "Rooms" = Some [CInt (rooms (form_of s))] /\
  column df "Distance" = Some [CFloat (distance (form_of s))] /\
  column df "Bedroom2" = Some [CInt (bedrooms (form_of s))] /\
  column df "Bathroom" = Some [CInt (bathrooms (form_of s))] /\
  column df "Car" = Some [CInt (car_spaces (form_of s))] /\
  column df "Landsize" = Some [CInt (land_size (form_of s))] /\
  column df "BuildingArea" = Some [CInt (building_area (form_of s))] /\
  column df "YearBuilt" = Some [CInt (year_built (form_of s))] /\
  column df "Propertycount" = Some [CInt (property_count (form_of s))] /\
  column df "Type" = Some [CStr (property_type (form_of s))] /\
  column df "Method" = Some [CStr (method (form_of s))] /\
  column df "Regionname" = Some [CStr (region (form_of s))] /\
  column df "CouncilArea" = Some [CStr (council (form_of s))].
Proof.
  intros Hin. apply in_predicted in Hin.
  assert (Hdf : df = make_input_data (form_of s)).
  { destruct (main_predicted fs s c) as [H|[_ H]]; rewrite H in Hin.
    - contradiction.
    - destruct Hin as [<-|[<-|[]]]; reflexivity. }
  subst df. split.
  - intros c'. destruct (prediction_form_run s c') as [evs [-> _]]. reflexivity.
  - split; [reflexivity|]. split.
    + unfold make_input_data. repeat (constructor; [reflexivity|]). constructor.
    + repeat split; reflexivity.
Qed.

(** C7: with widgets that keep their contract, every table that reaches
    a pipeline satisfies the constraints of the widgets it was read
    from: the nine numeric bounds and the four option lists. *)
Theorem record_within_widget_constraints
  (Spec : StreamlitSpec S)
  (fs : filesystem) (s : session) (c : cache) (df : DataFrame) :
  In (Predict df) (out (main fs s c)) -> widget_constraints df.
Proof.
  intros Hin. apply in_predicted in Hin.
  assert (Hdf : df = make_input_data (form_of s)).
  { destruct (main_predicted fs s c) as [H|[_ H]]; rewrite H in Hin.
    - contradiction.
    - destruct Hin as [<-|[<-|[]]]; reflexivity. }
  subst df. unfold widget_constraints, int_column_in, float_column_in,
    choice_column_in.
  repeat match goal with
         | |- exists _, _ =>
             eexists; split; [reflexivity|];
             cbn [form_of rooms bedrooms bathrooms car_spaces land_size
                  building_area year_built distance property_type region
                  council method property_count];
             first [ apply slider_int_range; lia
                   | apply number_input_range; lia
                   | apply selectbox_member; discriminate
                   | apply slider_float_range; reflexivity ]
         | |- _ /\ _ => split
         end.
Qed.

(** ** The cache across interactions *)

(** A run touches files and the cache only through [load_models]. *)
Lemma main_store_files (fs : filesystem) (s : session) (c : cache) :
  store (main fs s c) = store (load_models fs c) /\
  file_accesses (out (main fs s c)) = file_accesses (out (load_models fs c)).
Proof.
  rewrite main_run.
  destruct (load_models fs c) as [[[md|]|e] evs c1]; cbn [store out].
  2,3: split; [reflexivity|];
       rewrite !file_accesses_app, file_accesses_replay;
       cbn [app]; try apply app_nil_r; reflexivity.
  destruct (art_getitem (md_feature_info md) "numerical_cols_used");
    cbn [store out].
  2: split; [reflexivity|];
     rewrite !file_accesses_app, file_accesses_replay; reflexivity.
  destruct (art_getitem (md_feature_info md) "categorical_cols_used");
    cbn [store out].
  2: split; [reflexivity|];
     rewrite !file_accesses_app, file_accesses_replay; reflexivity.
  rewrite tab1_run.
  destruct (form_submit_button "Prediksi Harga" s).
  - destruct (show_predictions_events md (make_input_data (form_of s)) c1)
      as (Hst & _ & Hf).
    destruct (show_predictions md (make_input_data (form_of s)) c1)
      as [[[]|e] evs1 c2]; cbn [store out] in Hst, Hf |- *;
      (split; [assumption|]);
      rewrite !file_accesses_app, file_accesses_replay, file_accesses_show,
        ?file_accesses_app, ?file_accesses_replay, Hf;
      cbn [app]; apply app_nil_r.
  - cbn [store out]. split; [reflexivity|].
    rewrite !file_accesses_app, file_accesses_replay, file_accesses_show,
      ?file_accesses_app, ?file_accesses_replay.
    cbn [app]; apply app_nil_r.
Qed.

(** Once the cache is filled, no interaction reads a file. *)
Lemma serve_cached (interactions : list (filesystem * session)) (c : cache) :
  c <> None ->
  file_accesses (fst (serve interactions c)) = [] /\
  snd (serve interactions c) = c.
Proof.
  revert c. induction interactions as [|[fs s] rest IH]; intros c Hc.
  - split; reflexivity.
  - cbn [serve].
    destruct (main_store_files fs s c) as [Hst Hf].
    destruct (load_models_events fs c) as (_ & _ & Hhit & _).
    destruct (Hhit Hc) as [Hfiles Hstore].
    destruct (main fs s c) as [r evs c1]. cbn [store out] in Hst, Hf.
    rewrite Hstore in Hst. subst c1.
    destruct (IH c Hc) as [IHf IHs].
    destruct (serve rest c) as [evs' c2]. cbn [fst snd] in *.
    rewrite file_accesses_app, Hf, Hfiles, IHf. split; [reflexivity|assumption].
Qed.

Lemma NoDup_artifact_prefix (n : nat) : NoDup (firstn n artifact_paths).
Proof.
  assert (H : NoDup artifact_paths).
  { unfold artifact_paths.
    repeat (constructor; [simpl; intuition discriminate|]). constructor. }
  rewrite <- (firstn_skipn n artifact_paths) in H.
  apply NoDup_app_remove_r in H. exact H.
Qed.

(** C8: in a process that starts with an empty cache, whatever the
    interactions, each file of the models directory is read at most once
    and nothing else is read; the first run fills the cache, and a run
    that finds the cache filled reads no file, keeps the cache and gets
    the cached value from [load_models]. *)
Theorem artifacts_loaded_at_most_once
  (interactions : list (filesystem * session)) :
  NoDup (file_accesses (fst (serve interactions None))) /\
  incl (file_accesses (fst (serve interactions None))) artifact_paths /\
  (forall fs s, store (main fs s None) <> None) /\
  (forall fs s v replay,
     res (load_models fs (Some (v, replay))) = Ok v /\
     file_accesses (out (main fs s (Some (v, replay)))) = [] /\
     store (main fs s (Some (v, replay))) = Some (v, replay)).
Proof.
  assert (Hfirst : forall fs s,
            store (main fs s None) <> None /\
            exists n, file_accesses (out (main fs s None)) =
                      firstn n artifact_paths).
  { intros fs s. destruct (main_store_files fs s None) as [-> ->].
    destruct (load_models_events fs None) as (_ & _ & _ & Hmiss).
    destruct (Hmiss eq_refl) as (H1 & _ & _ & H2). split; assumption. }
  assert (Hall : exists n, file_accesses (fst (serve interactions None)) =
                           firstn n artifact_paths).
  { destruct interactions as [|[fs s] rest].
    - exists 0%nat. reflexivity.
    - cbn [serve]. destruct (Hfirst fs s) as [Hne [n Hn]].
      destruct (main fs s None) as [r evs c1]. cbn [store out] in Hne, Hn.
      destruct (serve_cached rest Hne) as [Hf _].
      destruct (serve rest c1) as [evs' c2]. cbn [fst] in *.
      exists n. rewrite file_accesses_app, Hf, Hn. apply app_nil_r. }
  destruct Hall as [n Hn]. rewrite Hn.
  split; [apply NoDup_artifact_prefix|].
  split; [intros p Hp; rewrite <- (firstn_skipn n artifact_paths);
          apply in_or_app; left; exact Hp|].
  split; [intros fs s; apply Hfirst|].
  intros fs s v replay. split; [reflexivity|].
  destruct (main_store_files fs s (Some (v, replay))) as [-> ->].
  destruct (load_models_events fs (Some (v, replay))) as (_ & _ & Hhit & _).
  destruct (Hhit ltac:(discriminate)) as [H1 H2]. split; assumption.
Qed.

(** ** Failure to load, and the label of the sidecar file *)

(** C9: the body of [load_models] returns the dictionary with its five
    entries, each the content of its file, exactly when all five files
    load, and [None] otherwise; the cached function never raises; and
    when it returns [None], [main] shows the failure message after what
    [load_models] showed and returns: no form, no prediction, no metric. *)
Theorem loading_is_all_or_nothing
  (fs : filesystem) (s : session) (c : cache) :
  ((exists md content,
      res (load_models_body fs c) = Ok (Some md) /\ loads fs md content) \/
   (res (load_models_body fs c) = Ok None /\
    forall md content, ~ loads fs md content)) /\
  (exists v, res (load_models fs c) = Ok v) /\
  (res (load_models fs c) = Ok None ->
   main fs s c =
     mkOutcome (Ok tt)
       (map Show intro_elements ++ out (load_models fs c) ++
        [Show (St_error failure_message)])
       (store (load_models fs c))) /\
  (res (load_models fs None) = Ok None ->
   existsb form_or_prediction (out (main fs s None)) = false).
Proof.
  split; [|split; [|split]].
  - rewrite load_models_body_run, load_artifacts_run.
    destruct (fs_joblib fs "./models/linear_regression.joblib") as [a1|e1] eqn:E1;
      [|right; split; [reflexivity|intros md ct (H & _); congruence]].
    destruct (fs_joblib fs "./models/polynomial_regression_(degree=2).joblib")
      as [a2|e2] eqn:E2;
      [|right; split; [reflexivity|intros md ct (_ & H & _); congruence]].
    destruct (fs_joblib fs "./models/preprocessor.joblib") as [a3|e3] eqn:E3;
      [|right; split; [reflexivity|intros md ct (_ & _ & H & _); congruence]].
    destruct (fs_joblib fs "./models/feature_info.joblib") as [a4|e4] eqn:E4;
      [|right; split; [reflexivity|intros md ct (_ & _ & _ & H & _); congruence]].
    destruct (fs_text fs "./models/best_model_name.txt") as [ct|e5] eqn:E5;
      [|right; split; [reflexivity|intros md ct (_ & _ & _ & _ & H & _); congruence]].
    left. exists (mkModels a1 a2 (strip ct) a3 a4), ct.
    split; [reflexivity|]. repeat split; assumption.
  - apply load_models_events.
  - intros Hnone. rewrite main_run.
    destruct (load_models fs c) as [r evs c1]. cbn [res out store] in *.
    subst r. reflexivity.
  - intros Hnone. rewrite main_run.
    destruct (load_models_events fs None) as (_ & _ & _ & Hmiss).
    destruct (Hmiss eq_refl) as (_ & _ & Hform & _).
    destruct (load_models fs None) as [r evs c1]. cbn [res out store] in *.
    subst r. cbn [out]. rewrite !existsb_app, Hform. reflexivity.
Qed.

(** C10: when the content of the sidecar file, stripped of surrounding
    whitespace, is anything but 'Linear Regression', a submission whose
    predictions are shown highlights the Polynomial Regression
    prediction under that label, whatever the label is; the run ends
    normally. *)
Theorem other_label_selects_polynomial
  (fs : filesystem) (s : session) (md : models_data) (content : string)
  (numerical_cols categorical_cols : list string)
  (x y : float) (xs ys : list float) (zx zy : Z) :
  loads fs md content ->
  strip content <> "Linear Regression" ->
  art_getitem (md_feature_info md) "numerical_cols_used" = Ok numerical_cols ->
  art_getitem (md_feature_info md) "categorical_cols_used" = Ok categorical_cols ->
  form_submit_button "Prediksi Harga" s = true ->
  art_predict (md_linear md) (make_input_data (form_of s)) = Ok (x :: xs) ->
  art_predict (md_poly md) (make_input_data (form_of s)) = Ok (y :: ys) ->
  int_of_float x = Ok zx ->
  int_of_float y = Ok zy ->
  res (main fs s None) = Ok tt /\
  metrics (out (main fs s None)) =
    [ ("Prediksi Regresi Linear", dollars zx);
      ("Prediksi Regresi Polinomial", dollars zy);
      ("Prediksi Model Terbaik (" ++ strip content ++ ")", dollars zy) ].
Proof.
  intros Hloads Hlabel Hnum Hcat Hsubmit Hx Hy Hzx Hzy.
  assert (Hname : md_best_model_name md = strip content) by apply Hloads.
  rewrite main_run, (load_models_fresh Hloads), Hnum, Hcat.
  rewrite tab1_run, Hsubmit.
  rewrite (@show_predictions_ok md _ _ x y xs ys zx zy Hx Hy Hzx Hzy).
  rewrite Hname.
  apply String.eqb_neq in Hlabel. rewrite Hlabel.
  split; reflexivity.
Qed.
End Page.

(* ------------------------------------------------------------------ *)
(** ** Concrete runs *)

(** The concrete front end keeps the widgets' contract. *)
#[export] Instance BrowserSpec : StreamlitSpec BrowserWidgets.
Proof.
  constructor.
  - intros l lo hi v step s Hv. cbn.
    destruct (sent_int s l) as [x|]; [|exact Hv].
    destruct (within lo hi x) eqn:E; [|exact Hv].
    unfold within in E. apply andb_true_iff in E. lia.
  - intros l lo hi v step s Hlo Hhi. cbn.
    destruct (sent_float s l) as [x|]; [|split; assumption].
    destruct (fwithin lo hi x) eqn:E; [|split; assumption].
    unfold fwithin in E. apply andb_true_iff in E. exact E.
  - intros l lo hi v step s Hv. cbn.
    destruct (sent_int s l) as [x|]; [|exact Hv].
    destruct (within lo hi x) eqn:E; [|exact Hv].
    unfold within in E. apply andb_true_iff in E. lia.
  - intros l options s Hne. cbn.
    destruct options as [|o options]; [contradiction|].
    destruct (sent_index s l) as [i|]; [|left; reflexivity].
    destruct (Nat.lt_ge_cases i (List.length (o :: options))) as [Hlt|Hge].
    + apply nth_In. exact Hlt.
    + rewrite nth_overflow by exact Hge. left. reflexivity.
Qed.

Lemma best_prediction_chosen_by_label_witness :
  res (tab1 (trained_models "Linear Regression") submitted None) = Ok tt /\
  metrics (out (tab1 (trained_models "Linear Regression") submitted None)) =
    [ ("Prediksi Regresi Linear", dollars 850000);
      ("Prediksi Regresi Polinomial", dollars 912345);
      ("Prediksi Model Terbaik (" ++ "Linear Regression" ++ ")",
       dollars 850000) ] /\
  best_of "Linear Regression" (Some 850000.75%float) (Some 912345.5%float) =
    Some 850000.75%float.
Proof.
  apply (@best_prediction_chosen_by_label BrowserWidgets
           (trained_models "Linear Regression") submitted None
           850000.75%float 912345.5%float [] [] 850000 912345);
    reflexivity.
Defined.

Lemma display_needs_both_predictions_witness :
  In (Show (St_success "Prediksi Selesai!"))
     (out (show_predictions
             (mkModels broken_pipeline poly_pipeline "Linear Regression"
                       feature_dict feature_dict)
             (make_input_data (form_of submitted)) None)) /\
  res (show_predictions
         (mkModels broken_pipeline poly_pipeline "Linear Regression"
                   feature_dict feature_dict)
         (make_input_data (form_of submitted)) None) = Raise int_of_None.
Proof.
  pose proof (@display_needs_both_predictions
                (mkModels broken_pipeline poly_pipeline "Linear Regression"
                          feature_dict feature_dict)
                (make_input_data (form_of submitted)) None) as [H _].
  destruct (H (or_introl eq_refl)) as (Hshown & _ & _ & _ & _ & Htype).
  split; [exact Hshown|exact (Htype eq_refl)].
Defined.

Lemma input_record_is_one_row_of_form_witness :
  In (Predict (make_input_data (form_of submitted)))
     (out (main trained_dir submitted None)) /\
  column (make_input_data (form_of submitted)) "Rooms" = Some [CInt 3] /\
  column (make_input_data (form_of submitted)) "Distance" =
    Some [CFloat 10.0%float] /\
  column (make_input_data (form_of submitted)) "CouncilArea" =
    Some [CStr "Banyule"].
Proof.
  assert (Hin : In (Predict (make_input_data (form_of submitted)))
                   (out (main trained_dir submitted None))).
  { apply in_predicted. vm_compute. left. reflexivity. }
  split; [exact Hin|].
  pose proof (@input_record_is_one_row_of_form BrowserWidgets trained_dir
                submitted None _ Hin) as H.
  destruct H as (_ & _ & _ & Hrooms & Hdistance & H).
  split; [exact Hrooms|]. split; [exact Hdistance|].
  apply H.
Defined.

Lemma record_within_widget_constraints_witness :
  In (Predict (make_input_data (form_of submitted)))
     (out (main trained_dir submitted None)) /\
  widget_constraints (make_input_data (form_of submitted)).
Proof.
  assert (Hin : In (Predict (make_input_data (form_of submitted)))
                   (out (main trained_dir submitted None))).
  { apply in_predicted. vm_compute. left. reflexivity. }
  split; [exact Hin|].
  exact (@record_within_widget_constraints BrowserWidgets BrowserSpec
           trained_dir submitted None _ Hin).
Defined.

Lemma loading_is_all_or_nothing_witness :
  res (load_models empty_dir None) = Ok None /\
  main empty_dir untouched None =
    mkOutcome (Ok tt)
      [ Show (St_title "Prediksi Harga Rumah Melbourne");
        Show (St_markdown TxtIntro);
        JoblibLoad "./models/linear_regression.joblib";
        Show (St_error ("Error saat memuat model: " ++
                        "./models/linear_regression.joblib"));
        Show (St_error failure_message) ]
      (Some (None, [St_error ("Error saat memuat model: " ++
                              "./models/linear_regression.joblib")])).
Proof.
  pose proof (@loading_is_all_or_nothing BrowserWidgets empty_dir untouched
                None) as (_ & _ & Hmain & _).
  split; [reflexivity|].
  rewrite (Hmain eq_refl). reflexivity.
Defined.

Lemma other_label_selects_polynomial_witness :
  strip ("Polynomial Regression (degree=2)" ++ newline) <> "Linear Regression" /\
  res (main trained_dir submitted None) = Ok tt /\
  metrics (out (main trained_dir submitted None)) =
    [ ("Prediksi Regresi Linear", dollars 850000);
      ("Prediksi Regresi Polinomial", dollars 912345);
      ("Prediksi Model Terbaik (" ++
         strip ("Polynomial Regression (degree=2)" ++ newline) ++ ")",
       dollars 912345) ].
Proof.
  assert (Hlabel : strip ("Polynomial Regression (degree=2)" ++ newline)
                   <> "Linear Regression").
  { vm_compute. discriminate. }
  split; [exact Hlabel|].
  apply (@other_label_selects_polynomial BrowserWidgets trained_dir submitted
           (trained_models "Polynomial Regression (degree=2)")
           ("Polynomial Regression (degree=2)" ++ newline)
           ["Rooms"; "Distance"; "Bedroom2"; "Bathroom"; "Car"; "Landsize";
            "BuildingArea"; "YearBuilt"; "Propertycount"]
           ["Type"; "Method"; "Regionname"; "CouncilArea"]
           850000.75%float 912345.5%float [] [] 850000 912345);
    try reflexivity; try exact Hlabel.
  repeat split; reflexivity.
Defined.

(** The empty sidecar file and a label in another spelling select the
    polynomial prediction as well. *)
Example empty_label_selects_polynomial :
  metrics (out (main (models_dir linear_pipeline poly_pipeline "") submitted None)) =
    [ ("Prediksi Regresi Linear", "$850,000");
      ("Prediksi Regresi Polinomial", "$912,345");
      ("Prediksi Model Terbaik ()", "$912,345") ] /\
  metrics (out (main (models_dir linear_pipeline poly_pipeline "linear regression")
                     submitted None)) =
    [ ("Prediksi Regresi Linear", "$850,000");
      ("Prediksi Regresi Polinomial", "$912,345");
      ("Prediksi Model Terbaik (linear regression)", "$912,345") ] /\
  metrics (out (main (models_dir linear_pipeline poly_pipeline
                        ("  Linear Regression" ++ newline))
                     submitted None)) =
    [ ("Prediksi Regresi Linear", "$850,000");
      ("Prediksi Regresi Polinomial", "$912,345");
      ("Prediksi Model Terbaik (Linear Regression)", "$850,000") ].
Proof. repeat split; vm_compute; reflexivity. Qed.

(* ================================================================== *)
(** * Further properties of the script *)

(** ** Loading, file by file *)

(** X1: on a first call, [load_models] reads the files in their fixed
    order and stops at the first one that does not load: the files
    accessed are those up to and including the first failure, and the
    dictionary is returned exactly when all five load. *)
Theorem load_stops_at_first_failure (fs : filesystem) :
  file_accesses (out (load_models fs None)) =
    upto_first_failure (readable fs) artifact_paths /\
  ((exists md, res (load_models fs None) = Ok (Some md)) <->
   forallb (readable fs) artifact_paths = true).
Proof.
  rewrite load_models_miss, load_models_body_run, load_artifacts_run.
  unfold artifact_paths. cbn [forallb upto_first_failure].
  change (readable fs "./models/linear_regression.joblib")
    with (match fs_joblib fs "./models/linear_regression.joblib" with
          | Ok _ => true | Raise _ => false end).
  change (readable fs "./models/polynomial_regression_(degree=2).joblib")
    with (match fs_joblib fs "./models/polynomial_regression_(degree=2).joblib" with
          | Ok _ => true | Raise _ => false end).
  change (readable fs "./models/preprocessor.joblib")
    with (match fs_joblib fs "./models/preprocessor.joblib" with
          | Ok _ => true | Raise _ => false end).
  change (readable fs "./models/feature_info.joblib")
    with (match fs_joblib fs "./models/feature_info.joblib" with
          | Ok _ => true | Raise _ => false end).
  change (readable fs "./models/best_model_name.txt")
    with (match fs_text fs "./models/best_model_name.txt" with
          | Ok _ => true | Raise _ => false end).
  assert (Hno : forall A (x : A), ~ (exists md : models_data, Ok (@None models_data) = Ok (Some md)))
    by (intros A x [md H]; discriminate H).
  destruct (fs_joblib fs "./models/linear_regression.joblib");
    [|split; [reflexivity|split; [intros H; exfalso; exact (Hno _ tt H)|discriminate]]].
  destruct (fs_joblib fs "./models/polynomial_regression_(degree=2).joblib");
    [|split; [reflexivity|split; [intros H; exfalso; exact (Hno _ tt H)|discriminate]]].
  destruct (fs_joblib fs "./models/preprocessor.joblib");
    [|split; [reflexivity|split; [intros H; exfalso; exact (Hno _ tt H)|discriminate]]].
  destruct (fs_joblib fs "./models/feature_info.joblib");
    [|split; [reflexivity|split; [intros H; exfalso; exact (Hno _ tt H)|discriminate]]].
  destruct (fs_text fs "./models/best_model_name.txt");
    [|split; [reflexivity|split; [intros H; exfalso; exact (Hno _ tt H)|discriminate]]].
  split; [reflexivity|]. split; [reflexivity|]. intros _. eexists. reflexivity.
Qed.

(** The handler of [load_models]: one error element, [None] returned. *)
Lemma load_models_body_handles (fs : filesystem) (c : cache) (e : exn) :
  res (load_artifacts fs c) = Raise e ->
  res (load_models_body fs c) = Ok None /\
  elements (out (load_models_body fs c)) =
    [St_error ("Error saat memuat model: " ++ exn_str e)].
Proof.
  intros Hraise. rewrite load_models_body_run, Hraise. split; [reflexivity|].
  cbn [out]. unfold elements. rewrite flat_map_app.
  destruct (load_artifacts_events fs c) as [_ [Hel _]].
  unfold elements in Hel. rewrite Hel. reflexivity.
Qed.

(** X2: what the first call of [load_models] returned, the dictionary or
    [None], is what every later run gets, whatever the models directory
    holds by then; a later run reads no file, and after a failed first
    load it shows the stored error again, then the failure message, and
    nothing else. *)
Theorem first_load_is_kept
  {S : Streamlit} (fs fs' : filesystem) (s s' : session) :
  res (load_models fs' (store (main fs s None))) = res (load_models fs None) /\
  file_accesses (out (main fs' s' (store (main fs s None)))) = [] /\
  store (main fs' s' (store (main fs s None))) = store (main fs s None) /\
  (forall e,
     res (load_artifacts fs None) = Raise e ->
     main fs' s' (store (main fs s None)) =
       mkOutcome (Ok tt)
         (map Show intro_elements ++
          [Show (St_error ("Error saat memuat model: " ++ exn_str e));
           Show (St_error failure_message)])
         (store (main fs s None))).
Proof.
  destruct (main_store_files fs s None) as [Hstore _].
  rewrite Hstore. clear Hstore.
  destruct (main_store_files fs' s' (store (load_models fs None))) as [Hst' Hf'].
  destruct (load_models_events fs None) as ([v Hv] & _ & _ & Hmiss).
  destruct (Hmiss eq_refl) as (Hne & _).
  destruct (load_models_events fs' (store (load_models fs None)))
    as (_ & _ & Hhit & _).
  destruct (Hhit Hne) as [Hfiles Hkeep].
  rewrite Hst', Hf', Hfiles, Hkeep.
  assert (Hcache : store (load_models fs None) =
                   Some (v, elements (out (load_models fs None)))).
  { rewrite load_models_miss in Hv |- *. cbn [res out store] in Hv |- *.
    rewrite Hv. reflexivity. }
  split; [rewrite Hcache, Hv; reflexivity|].
  split; [reflexivity|]. split; [reflexivity|].
  intros e Hraise.
  destruct (load_models_body_handles fs None Hraise) as [Hres Hel].
  rewrite main_run.
  assert (Hv' : v = None).
  { rewrite load_models_miss in Hv. cbn [res] in Hv. congruence. }
  subst v. rewrite Hcache.
  unfold load_models at 1, cache_resource. cbv beta iota.
  rewrite load_models_miss. cbn [out]. rewrite Hel. reflexivity.
Qed.

(** ** Runs of the page *)

Section Runs.
Context {S : Streamlit}.

(** X3: a run in which the submit button was not pressed shows the
    whole page (what [load_models] showed, the tabs, the form, the two
    static tabs), asks no pipeline for a prediction and ends normally. *)
Theorem idle_run_shows_page_without_prediction
  (fs : filesystem) (s : session) (c : cache) (md : models_data)
  (numerical_cols categorical_cols : list string) :
  res (load_models fs c) = Ok (Some md) ->
  art_getitem (md_feature_info md) "numerical_cols_used" = Ok numerical_cols ->
  art_getitem (md_feature_info md) "categorical_cols_used" = Ok categorical_cols ->
  form_submit_button "Prediksi Harga" s = false ->
  main fs s c =
    mkOutcome (Ok tt)
      (map Show intro_elements ++ out (load_models fs c) ++
       Show (St_tabs tab_names) ::
       map Show form_elements ++ map Show static_elements)
      (store (load_models fs c)) /\
  predicted (out (main fs s c)) = [].
Proof.
  intros Hload Hnum Hcat Hsubmit.
  assert (Hmain : main fs s c =
    mkOutcome (Ok tt)
      (map Show intro_elements ++ out (load_models fs c) ++
       Show (St_tabs tab_names) ::
       map Show form_elements ++ map Show static_elements)
      (store (load_models fs c))).
  { rewrite main_run.
    destruct (load_models fs c) as [r evs c1]. cbn [res out store] in *.
    subst r. rewrite Hnum, Hcat, tab1_run, Hsubmit. reflexivity. }
  split; [exact Hmain|].
  destruct (main_predicted fs s c) as [H|[H _]]; [exact H|congruence].
Qed.

(** X4: when the feature metadata lacks one of the two keys [main] looks
    up, the look-up's exception leaves [main] unhandled, after what
    [load_models] showed and before the tabs and the form. *)
Theorem missing_feature_key_ends_run
  (fs : filesystem) (s : session) (c : cache) (md : models_data) (e : exn) :
  res (load_models fs c) = Ok (Some md) ->
  art_getitem (md_feature_info md) "numerical_cols_used" = Raise e \/
  ((exists cols, art_getitem (md_feature_info md) "numerical_cols_used" = Ok cols) /\
   art_getitem (md_feature_info md) "categorical_cols_used" = Raise e) ->
  main fs s c =
    mkOutcome (Raise e)
      (map Show intro_elements ++ out (load_models fs c))
      (store (load_models fs c)).
Proof.
  intros Hload Hkey. rewrite main_run.
  destruct (load_models fs c) as [r evs c1]. cbn [res out store] in *.
  subst r. destruct Hkey as [Hnum|[[cols Hnum] Hcat]].
  - rewrite Hnum. reflexivity.
  - rewrite Hnum, Hcat. reflexivity.
Qed.
End Runs.

(** ** The label of the sidecar file *)

Lemma lstrip_app_space (pre t : string) :
  all_space pre = true -> lstrip (pre ++ t) = lstrip t.
Proof.
  induction pre as [|c pre IH]; intros H; [reflexivity|].
  cbn in H. apply andb_true_iff in H. destruct H as [Hc Hpre].
  cbn. rewrite Hc. apply IH, Hpre.
Qed.

Lemma lstrip_all_space (s : string) : all_space s = true -> lstrip s = "".
Proof.
  induction s as [|c s IH]; intros H; [reflexivity|].
  cbn in H. apply andb_true_iff in H. destruct H as [Hc Hs].
  cbn. rewrite Hc. apply IH, Hs.
Qed.

Lemma rstrip_all_space (s : string) : all_space s = true -> rstrip s = "".
Proof.
  induction s as [|c s IH]; intros H; [reflexivity|].
  cbn in H. apply andb_true_iff in H. destruct H as [Hc Hs].
  cbn. rewrite (IH Hs), Hc. reflexivity.
Qed.

Lemma rstrip_app_space (t post : string) :
  all_space post = true -> rstrip (t ++ post) = rstrip t.
Proof.
  intros H. induction t as [|c t IH].
  - cbn. apply rstrip_all_space, H.
  - cbn. rewrite IH. reflexivity.
Qed.

Lemma lstrip_starts (s : string) :
  lstrip s = "" \/ exists c r, lstrip s = String c r /\ isspace c = false.
Proof.
  induction s as [|c s IH]; [left; reflexivity|].
  cbn. destruct (isspace c) eqn:E; [exact IH|].
  right. exists c, s. split; [reflexivity|exact E].
Qed.

Lemma lstrip_fixed (s : string) : lstrip (lstrip s) = lstrip s.
Proof.
  destruct (lstrip_starts s) as [->|(c & r & -> & Hc)]; [reflexivity|].
  cbn. rewrite Hc. reflexivity.
Qed.

Lemma rstrip_cons (c : ascii) (s : string) :
  rstrip (String c s) =
  match rstrip s with
  | EmptyString => if isspace c then EmptyString else String c EmptyString
  | r => String c r
  end.
Proof. reflexivity. Qed.

Lemma rstrip_fixed (s : string) : rstrip (rstrip s) = rstrip s.
Proof.
  induction s as [|c s IH]; [reflexivity|].
  rewrite rstrip_cons. destruct (rstrip s) as [|c' r] eqn:E.
  - destruct (isspace c) eqn:Ec; [reflexivity|].
    rewrite rstrip_cons. cbn [rstrip]. rewrite Ec. reflexivity.
  - rewrite rstrip_cons, IH. reflexivity.
Qed.

Lemma lstrip_rstrip_fixed (t : string) :
  lstrip t = t -> lstrip (rstrip t) = rstrip t.
Proof.
  intros Ht. destruct t as [|c r]; [reflexivity|].
  assert (Hc : isspace c = false).
  { destruct (lstrip_starts (String c r)) as [H|(c' & r' & H & Hc')];
      rewrite Ht in H; [discriminate H|].
    injection H as -> ->. exact Hc'. }
  rewrite rstrip_cons. destruct (rstrip r); [rewrite Hc|]; cbn [lstrip]; rewrite Hc; reflexivity.
Qed.

(** What a first call returned as the dictionary was read from the
    five files. *)
Lemma load_models_some_loads (fs : filesystem) (md : models_data) :
  res (load_models fs None) = Ok (Some md) ->
  exists content, loads fs md content.
Proof.
  rewrite load_models_miss, load_models_body_run, load_artifacts_run.
  cbn [res]. unfold loads.
  destruct (fs_joblib fs "./models/linear_regression.joblib"); [|discriminate].
  destruct (fs_joblib fs "./models/polynomial_regression_(degree=2).joblib");
    [|discriminate].
  destruct (fs_joblib fs "./models/preprocessor.joblib"); [|discriminate].
  destruct (fs_joblib fs "./models/feature_info.joblib"); [|discriminate].
  destruct (fs_text fs "./models/best_model_name.txt") as [content|];
    [|discriminate].
  cbn [res]. intros H. injection H as <-. exists content.
  repeat split; reflexivity.
Qed.

(** X5: the stored best-model name never begins or ends with
    whitespace: stripping it again, on either side, changes nothing. *)
Theorem stored_label_is_stripped (fs : filesystem) (md : models_data) :
  res (load_models fs None) = Ok (Some md) ->
  lstrip (md_best_model_name md) = md_best_model_name md /\
  rstrip (md_best_model_name md) = md_best_model_name md /\
  strip (md_best_model_name md) = md_best_model_name md.
Proof.
  intros Hload. destruct (@load_models_some_loads fs md Hload) as [content Hl].
  assert (Hname : md_best_model_name md = strip content) by apply Hl.
  rewrite Hname. unfold strip.
  assert (Hl1 : lstrip (rstrip (lstrip content)) = rstrip (lstrip content))
    by (apply lstrip_rstrip_fixed, lstrip_fixed).
  split; [exact Hl1|]. split; [apply rstrip_fixed|].
  rewrite Hl1. apply rstrip_fixed.
Qed.

(** X6: whitespace around the label in the sidecar file is ignored: a
    content made of whitespace, a label without surrounding whitespace,
    and whitespace again is stored as that label. *)
Theorem padded_label_is_stored_bare
  (fs : filesystem) (md : models_data) (pre label post : string) :
  loads fs md (pre ++ label ++ post) ->
  all_space pre = true -> all_space post = true ->
  lstrip label = label -> rstrip label = label ->
  md_best_model_name md = label.
Proof.
  intros Hl Hpre Hpost Hleft Hright.
  assert (Hname : md_best_model_name md = strip (pre ++ label ++ post))
    by apply Hl.
  rewrite Hname. unfold strip. rewrite (@lstrip_app_space pre _ Hpre).
  destruct label as [|c r].
  - cbn [append]. rewrite (@lstrip_all_space post Hpost). reflexivity.
  - assert (Hc : isspace c = false).
    { destruct (lstrip_starts (String c r)) as [H|(c' & r' & H & Hc')];
        rewrite Hleft in H; [discriminate H|].
      injection H as -> ->. exact Hc'. }
    cbn [append lstrip]. rewrite Hc.
    change (String c (r ++ post)) with (String c r ++ post).
    rewrite (@rstrip_app_space _ post Hpost). exact Hright.
Qed.

Section Label.
Context {S : Streamlit}.

(** X7: when the content of the sidecar file, stripped, is exactly
    'Linear Regression', a submission whose predictions are shown
    highlights the Linear Regression prediction under that label. *)
Theorem linear_label_selects_linear
  (fs : filesystem) (s : session) (md : models_data) (content : string)
  (numerical_cols categorical_cols : list string)
  (x y : float) (xs ys : list float) (zx zy : Z) :
  loads fs md content ->
  strip content = "Linear Regression" ->
  art_getitem (md_feature_info md) "numerical_cols_used" = Ok numerical_cols ->
  art_getitem (md_feature_info md) "categorical_cols_used" = Ok categorical_cols ->
  form_submit_button "Prediksi Harga" s = true ->
  art_predict (md_linear md) (make_input_data (form_of s)) = Ok (x :: xs) ->
  art_predict (md_poly md) (make_input_data (form_of s)) = Ok (y :: ys) ->
  int_of_float x = Ok zx ->
  int_of_float y = Ok zy ->
  res (main fs s None) = Ok tt /\
  metrics (out (main fs s None)) =
    [ ("Prediksi Regresi Linear", dollars zx);
      ("Prediksi Regresi Polinomial", dollars zy);
      ("Prediksi Model Terbaik (Linear Regression)", dollars zx) ].
Proof.
  intros Hloads Hlabel Hnum Hcat Hsubmit Hx Hy Hzx Hzy.
  assert (Hname : md_best_model_name md = "Linear Regression").
  { rewrite <- Hlabel. apply Hloads. }
  rewrite main_run, (load_models_fresh Hloads), Hnum, Hcat.
  rewrite tab1_run, Hsubmit.
  rewrite (@show_predictions_ok md _ _ x y xs ys zx zy Hx Hy Hzx Hzy).
  rewrite Hname. split; reflexivity.
Qed.
End Label.

(** ** Predictions that are not finite numbers *)

Lemma Prim2SF_infinity : Prim2SF infinity = S754_infinity false.
Proof. reflexivity. Qed.

Lemma SFeqb_refl_finite (s : spec_float) :
  SFeqb s s = match s with S754_nan => false | _ => true end.
Proof.
  unfold SFeqb, SFcompare. destruct s as [sg|sg| |sg m e]; try reflexivity.
  - destruct sg; reflexivity.
  - rewrite Z.compare_refl.
    change (Pos.compare_cont Eq m m) with (Pos.compare m m).
    rewrite Pos.compare_refl. destruct sg; reflexivity.
Qed.

(** [is_finite] read on the decoded float. *)
Lemma is_finite_decoded (f : float) :
  PrimFloat.is_finite f =
  match Prim2SF f with
  | S754_zero _ | S754_finite _ _ _ => true
  | S754_infinity _ | S754_nan => false
  end.
Proof.
  unfold PrimFloat.is_finite, PrimFloat.is_nan, PrimFloat.is_infinity.
  rewrite !FloatAxioms.eqb_spec, FloatAxioms.abs_spec, Prim2SF_infinity.
  rewrite SFeqb_refl_finite.
  destruct (Prim2SF f) as [sg|sg| |sg m e]; reflexivity.
Qed.

(** [int] accepts exactly the finite floats. *)
Lemma int_of_float_finite (f : float) :
  (exists z, int_of_float f = Ok z) <-> PrimFloat.is_finite f = true.
Proof.
  rewrite is_finite_decoded. unfold int_of_float.
  destruct (Prim2SF f) as [sg|sg| |sg m e]; split; intros H;
    try reflexivity; try discriminate H;
    try (eexists; reflexivity); destruct H as [z H]; discriminate H.
Qed.

(** The submit branch returns only after both pipelines answered with a
    number that [int] accepts. *)
Lemma show_predictions_completes (md : models_data) (input_data : DataFrame)
  (c : cache) :
  res (show_predictions md input_data c) = Ok tt ->
  exists x xs y ys zx zy,
    art_predict (md_linear md) input_data = Ok (x :: xs) /\
    art_predict (md_poly md) input_data = Ok (y :: ys) /\
    int_of_float x = Ok zx /\ int_of_float y = Ok zy.
Proof.
  unfold show_predictions. script_unfold.
  rewrite predict_price_run.
  destruct (art_predict (md_linear md) input_data) as [[|x xs]|e1];
    cbv beta iota; rewrite predict_price_run;
    destruct (art_predict (md_poly md) input_data) as [[|y ys]|e2];
    cbv beta iota; unfold best_of;
    destruct (String.eqb (md_best_model_name md) "Linear Regression");
    cbn [py_int bar_heights bar_texts res out];
    try (intros H; discriminate H);
    destruct (int_of_float x) as [zx|ex] eqn:Hzx;
    cbn [py_int bar_heights bar_texts res out];
    try (intros H; discriminate H);
    destruct (int_of_float y) as [zy|ey] eqn:Hzy;
    cbn [py_int bar_heights bar_texts res out];
    try (intros H; discriminate H);
    intros _; exists x, xs, y, ys, zx, zy; repeat split; try reflexivity; assumption.
Qed.

(** X8: the display of a submission completes exactly when each of the
    two pipelines answers with a non-empty array whose first element is
    a finite number; an infinite or NaN prediction ends the run like a
    missing one. *)
Theorem display_completes_iff_finite
  (md : models_data) (input_data : DataFrame) (c : cache) :
  res (show_predictions md input_data c) = Ok tt <->
  exists x xs y ys,
    art_predict (md_linear md) input_data = Ok (x :: xs) /\
    art_predict (md_poly md) input_data = Ok (y :: ys) /\
    PrimFloat.is_finite x = true /\ PrimFloat.is_finite y = true.
Proof.
  split.
  - intros H.
    destruct (show_predictions_completes md input_data c H)
      as (x & xs & y & ys & zx & zy & Hx & Hy & Hzx & Hzy).
    exists x, xs, y, ys. repeat split; try assumption;
      apply int_of_float_finite; eexists; eassumption.
  - intros (x & xs & y & ys & Hx & Hy & Hfx & Hfy).
    apply int_of_float_finite in Hfx, Hfy.
    destruct Hfx as [zx Hzx]. destruct Hfy as [zy Hzy].
    rewrite (@show_predictions_ok md input_data c x y xs ys zx zy Hx Hy Hzx Hzy).
    reflexivity.
Qed.

(** X9: when the linear pipeline's [predict] raises, the polynomial one
    is still asked, the success message is still shown, no metric
    appears and the run of the display ends with [int(None)]'s
    TypeError, whatever the polynomial pipeline answered. *)
Theorem failed_linear_prediction_shows_no_metric
  (md : models_data) (input_data : DataFrame) (c : cache) (e : exn) :
  art_predict (md_linear md) input_data = Raise e ->
  res (show_predictions md input_data c) = Raise int_of_None /\
  metrics (out (show_predictions md input_data c)) = [] /\
  predicted (out (show_predictions md input_data c)) = [input_data; input_data] /\
  firstn 3 (out (show_predictions md input_data c)) =
    [ Show (St_spinner "Menghitung harga...");
      Predict input_data;
      Show (St_error ("Error saat membuat prediksi: " ++ exn_str e)) ] /\
  In (Show (St_success "Prediksi Selesai!"))
     (out (show_predictions md input_data c)).
Proof.
  intros He. unfold show_predictions. script_unfold.
  rewrite predict_price_run, He. cbv beta iota. rewrite predict_price_run.
  destruct (art_predict (md_poly md) input_data) as [[|y ys]|e2];
    cbv beta iota; cbn [py_int res out];
    repeat split; try reflexivity; simpl; tauto.
Qed.

(** X10: when only the polynomial pipeline's [predict] raises, the
    linear metric is shown and nothing after it: the run of the display
    ends with [int(None)]'s TypeError at the second metric. *)
Theorem failed_polynomial_prediction_stops_after_linear_metric
  (md : models_data) (input_data : DataFrame) (c : cache)
  (x : float) (xs : list float) (zx : Z) (e : exn) :
  art_predict (md_linear md) input_data = Ok (x :: xs) ->
  int_of_float x = Ok zx ->
  art_predict (md_poly md) input_data = Raise e ->
  show_predictions md input_data c =
    mkOutcome (Raise int_of_None)
      [ Show (St_spinner "Menghitung harga...");
        Predict input_data;
        Predict input_data;
        Show (St_error ("Error saat membuat prediksi: " ++ exn_str e));
        Show (St_success "Prediksi Selesai!");
        Show (St_columns 3);
        Show (St_metric "Prediksi Regresi Linear" (dollars zx)) ] c.
Proof.
  intros Hx Hzx He. unfold show_predictions. script_unfold.
  rewrite predict_price_run, Hx. cbv beta iota.
  rewrite predict_price_run, He. cbv beta iota.
  cbn [py_int]. rewrite Hzx. reflexivity.
Qed.

Section Broken.
Context {S : Streamlit}.

(** X11: an exception in the display of a submission ends the run of
    the script there: the page holds what was shown up to the exception
    and neither of the two static tabs. *)
Theorem failed_display_ends_run
  (fs : filesystem) (s : session) (c : cache) (md : models_data)
  (numerical_cols categorical_cols : list string) (e : exn) :
  res (load_models fs c) = Ok (Some md) ->
  art_getitem (md_feature_info md) "numerical_cols_used" = Ok numerical_cols ->
  art_getitem (md_feature_info md) "categorical_cols_used" = Ok categorical_cols ->
  form_submit_button "Prediksi Harga" s = true ->
  res (show_predictions md (make_input_data (form_of s))
         (store (load_models fs c))) = Raise e ->
  main fs s c =
    mkOutcome (Raise e)
      (map Show intro_elements ++ out (load_models fs c) ++
       Show (St_tabs tab_names) :: map Show form_elements ++
       out (show_predictions md (make_input_data (form_of s))
              (store (load_models fs c))))
      (store (load_models fs c)).
Proof.
  intros Hload Hnum Hcat Hsubmit Hraise. rewrite main_run.
  destruct (show_predictions_events md (make_input_data (form_of s))
              (store (load_models fs c))) as (Hst & _).
  destruct (load_models fs c) as [r evs c1]. cbn [res out store] in *.
  subst r. rewrite Hnum, Hcat, tab1_run, Hsubmit.
  destruct (show_predictions md (make_input_data (form_of s)) c1)
    as [r evs1 c2]. cbn [res out store] in *. subst r c2. reflexivity.
Qed.
End Broken.

(** X12: a pipeline that answers with an empty array is reported like
    one that failed: one error message, [None] returned, no exception. *)
Theorem empty_prediction_is_reported
  (model : artifact) (input_data : DataFrame) (c : cache) :
  art_predict model input_data = Ok [] ->
  res (predict_price model input_data c) = Ok None /\
  store (predict_price model input_data c) = c /\
  exists msg,
    out (predict_price model input_data c) =
      [Predict input_data;
       Show (St_error ("Error saat membuat prediksi: " ++ msg))].
Proof.
  intros H. rewrite predict_price_run, H.
  repeat split. eexists. reflexivity.
Qed.

(** ** Displayed amounts *)

Lemma commas_rev_filter (ds : list ascii) (k : nat) :
  forallb not_comma ds = true ->
  filter not_comma (commas_rev ds k) = ds.
Proof.
  revert k. induction ds as [|d ds IH]; intros k H; [reflexivity|].
  cbn [forallb] in H. apply andb_true_iff in H. destruct H as [Hd Hds].
  destruct k as [|k]; cbn [commas_rev filter].
  - change (not_comma ","%char) with false. cbv iota.
    cbn [filter]. rewrite Hd, (IH 2%nat Hds). reflexivity.
  - rewrite Hd, (IH k Hds). reflexivity.
Qed.

Lemma digits_not_comma (d : Decimal.uint) :
  forallb not_comma (list_ascii_of_string (NilEmpty.string_of_uint d)) = true.
Proof. induction d; cbn; auto. Qed.

Lemma NilZero_digits_not_comma (d : Decimal.uint) :
  forallb not_comma (list_ascii_of_string (NilZero.string_of_uint d)) = true.
Proof. destruct d; try apply digits_not_comma. reflexivity. Qed.

Lemma forallb_filter_id {A} (f : A -> bool) (l : list A) :
  forallb f l = true -> filter f l = l.
Proof.
  induction l as [|a l IH]; intros H; [reflexivity|].
  cbn in H. apply andb_true_iff in H. destruct H as [Ha Hl].
  cbn. rewrite Ha, (IH Hl). reflexivity.
Qed.

(** Without its commas, a formatted integer is its plain decimal
    writing. *)
Lemma remove_commas_format (z : Z) :
  remove_commas (format_thousands z) = NilZero.string_of_int (Z.to_int z).
Proof.
  assert (Hbody : forall d,
    remove_commas
      (string_of_list_ascii
         (rev (commas_rev
                 (rev (list_ascii_of_string (NilZero.string_of_uint d))) 3))) =
    NilZero.string_of_uint d).
  { intros d. unfold remove_commas.
    rewrite list_ascii_of_string_of_list_ascii.
    rewrite filter_rev, commas_rev_filter, rev_involutive.
    - apply string_of_list_ascii_of_string.
    - apply forallb_forall. intros x Hx. apply in_rev in Hx.
      revert x Hx. apply forallb_forall, NilZero_digits_not_comma. }
  unfold format_thousands. destruct z as [|p|p]; cbn [Z.ltb Z.compare Z.abs Z.to_N N.to_uint Z.to_int].
  - reflexivity.
  - apply Hbody.
  - cbn [NilZero.string_of_int append].
    change (remove_commas (String "-" ?s)) with (String "-" (remove_commas s)).
    rewrite Hbody. reflexivity.
Qed.

(** X13: the amount shown for an integer reads back as that integer:
    after the dollar sign and without the grouping commas it is the
    decimal writing of the integer. *)
Theorem displayed_amount_reads_back (z : Z) :
  amount_of (dollars z) = Some z /\
  remove_commas (format_thousands z) = NilZero.string_of_int (Z.to_int z).
Proof.
  split; [|apply remove_commas_format].
  unfold dollars, amount_of. cbn [append].
  rewrite remove_commas_format, NilZero.isi.
  - cbn [option_map]. rewrite DecimalZ.of_to. reflexivity.
  - destruct z as [|p|p]; cbn; try discriminate.
    intros H. injection H as H. exact (DecimalPos.Unsigned.to_uint_nonnil p H).
  - destruct z as [|p|p]; cbn; try discriminate.
    intros H. injection H as H. exact (DecimalPos.Unsigned.to_uint_nonnil p H).
Qed.

(** X14: whenever the display of a submission completes, it showed
    exactly three metrics and one chart of two bars; the texts over the
    bars are the amounts of the first two metrics, and the highlighted
    amount is one of those two. *)
Theorem completed_display_is_consistent
  (md : models_data) (input_data : DataFrame) (c : cache) :
  res (show_predictions md input_data c) = Ok tt ->
  exists a1 a2 a3 fig,
    metrics (out (show_predictions md input_data c)) =
      [ ("Prediksi Regresi Linear", a1);
        ("Prediksi Regresi Polinomial", a2);
        ("Prediksi Model Terbaik (" ++ md_best_model_name md ++ ")", a3) ] /\
    (a3 = a1 \/ a3 = a2) /\
    In (Show (St_pyplot fig)) (out (show_predictions md input_data c)) /\
    map (fun b => fst (fst b)) (fig_bars fig) =
      ["Regresi Linear"; "Regresi Polinomial"] /\
    map snd (fig_texts fig) = [a1; a2].
Proof.
  intros H.
  destruct (show_predictions_completes md input_data c H)
    as (x & xs & y & ys & zx & zy & Hx & Hy & Hzx & Hzy).
  rewrite (@show_predictions_ok md input_data c x y xs ys zx zy Hx Hy Hzx Hzy).
  cbn [out].
  exists (dollars zx), (dollars zy),
    (dollars (if String.eqb (md_best_model_name md) "Linear Regression"
              then zx else zy)).
  eexists. split; [reflexivity|]. split.
  - destruct (String.eqb (md_best_model_name md) "Linear Regression");
      [left|right]; reflexivity.
  - split; [cbn [In]; do 8 right; left; reflexivity|].
    split; reflexivity.
Qed.

(* ------------------------------------------------------------------ *)
(** ** Concrete runs of the further properties *)

Lemma first_load_is_kept_witness :
  res (load_models trained_dir (store (main empty_dir untouched None))) = Ok None /\
  main trained_dir submitted (store (main empty_dir untouched None)) =
    mkOutcome (Ok tt)
      (map Show intro_elements ++
       [Show (St_error ("Error saat memuat model: " ++
                        "./models/linear_regression.joblib"));
        Show (St_error failure_message)])
      (store (main empty_dir untouched None)).
Proof.
  pose proof (@first_load_is_kept BrowserWidgets empty_dir trained_dir
                untouched submitted) as (Hres & _ & _ & Hfail).
  split; [exact Hres|].
  exact (Hfail (FileNotFoundError "./models/linear_regression.joblib") eq_refl).
Defined.

Lemma idle_run_shows_page_without_prediction_witness :
  predicted (out (main trained_dir untouched None)) = [] /\
  res (main trained_dir untouched None) = Ok tt.
Proof.
  pose proof (@idle_run_shows_page_without_prediction BrowserWidgets
                trained_dir untouched None
                (trained_models "Polynomial Regression (degree=2)")
                ["Rooms"; "Distance"; "Bedroom2"; "Bathroom"; "Car"; "Landsize";
                 "BuildingArea"; "YearBuilt"; "Propertycount"]
                ["Type"; "Method"; "Regionname"; "CouncilArea"]
                eq_refl eq_refl eq_refl eq_refl) as [Hmain Hpred].
  split; [exact Hpred|]. rewrite Hmain. reflexivity.
Defined.

Lemma missing_feature_key_ends_run_witness :
  res (main (models_dir_with linear_pipeline poly_pipeline (pipeline []) "x")
            submitted None) =
    Raise (TypeError "'Pipeline' object is not subscriptable").
Proof.
  rewrite (@missing_feature_key_ends_run BrowserWidgets
             (models_dir_with linear_pipeline poly_pipeline (pipeline []) "x")
             submitted None
             (mkModels linear_pipeline poly_pipeline "x" feature_dict (pipeline []))
             (TypeError "'Pipeline' object is not subscriptable")
             eq_refl (or_introl eq_refl)).
  reflexivity.
Defined.

Lemma stored_label_is_stripped_witness :
  strip "Polynomial Regression (degree=2)" = "Polynomial Regression (degree=2)".
Proof.
  exact (proj2 (proj2 (@stored_label_is_stripped trained_dir
                         (trained_models "Polynomial Regression (degree=2)")
                         eq_refl))).
Defined.

Lemma padded_label_is_stored_bare_witness :
  md_best_model_name (trained_models "Linear Regression") = "Linear Regression".
Proof.
  apply (@padded_label_is_stored_bare
           (models_dir linear_pipeline poly_pipeline
              (("  " ++ newline) ++ "Linear Regression" ++ (" " ++ newline)))
           (trained_models "Linear Regression")
           ("  " ++ newline) "Linear Regression" (" " ++ newline));
    try reflexivity.
  repeat split; reflexivity.
Defined.

Lemma linear_label_selects_linear_witness :
  metrics (out (main (models_dir linear_pipeline poly_pipeline
                        ("Linear Regression" ++ newline))
                     submitted None)) =
    [ ("Prediksi Regresi Linear", dollars 850000);
      ("Prediksi Regresi Polinomial", dollars 912345);
      ("Prediksi Model Terbaik (Linear Regression)", dollars 850000) ].
Proof.
  apply (@linear_label_selects_linear BrowserWidgets
           (models_dir linear_pipeline poly_pipeline
              ("Linear Regression" ++ newline))
           submitted (trained_models "Linear Regression")
           ("Linear Regression" ++ newline)
           ["Rooms"; "Distance"; "Bedroom2"; "Bathroom"; "Car"; "Landsize";
            "BuildingArea"; "YearBuilt"; "Propertycount"]
           ["Type"; "Method"; "Regionname"; "CouncilArea"]
           850000.75%float 912345.5%float [] [] 850000 912345);
    try reflexivity.
  repeat split; reflexivity.
Defined.

Lemma failed_linear_prediction_shows_no_metric_witness :
  res (show_predictions
         (mkModels broken_pipeline poly_pipeline "Linear Regression"
                   feature_dict feature_dict)
         (make_input_data (@form_of BrowserWidgets submitted)) None) = Raise int_of_None /\
  metrics (out (show_predictions
                  (mkModels broken_pipeline poly_pipeline "Linear Regression"
                            feature_dict feature_dict)
                  (make_input_data (@form_of BrowserWidgets submitted)) None)) = [].
Proof.
  pose proof (@failed_linear_prediction_shows_no_metric
                (mkModels broken_pipeline poly_pipeline "Linear Regression"
                          feature_dict feature_dict)
                (make_input_data (@form_of BrowserWidgets submitted)) None
                (ValueError "columns are missing") eq_refl) as (H1 & H2 & _).
  split; assumption.
Defined.

Lemma failed_polynomial_prediction_stops_after_linear_metric_witness :
  metrics (out (show_predictions
                  (mkModels linear_pipeline broken_pipeline
                            "Polynomial Regression (degree=2)"
                            feature_dict feature_dict)
                  (make_input_data (@form_of BrowserWidgets submitted)) None)) =
    [("Prediksi Regresi Linear", dollars 850000)].
Proof.
  rewrite (@failed_polynomial_prediction_stops_after_linear_metric
             (mkModels linear_pipeline broken_pipeline
                       "Polynomial Regression (degree=2)"
                       feature_dict feature_dict)
             (make_input_data (@form_of BrowserWidgets submitted)) None
             850000.75%float [] 850000 (ValueError "columns are missing")
             eq_refl eq_refl eq_refl).
  reflexivity.
Defined.

Lemma failed_display_ends_run_witness :
  res (main (models_dir broken_pipeline poly_pipeline "Linear Regression")
            submitted None) = Raise int_of_None.
Proof.
  rewrite (@failed_display_ends_run BrowserWidgets
             (models_dir broken_pipeline poly_pipeline "Linear Regression")
             submitted None
             (mkModels broken_pipeline poly_pipeline "Linear Regression"
                       feature_dict feature_dict)
             ["Rooms"; "Distance"; "Bedroom2"; "Bathroom"; "Car"; "Landsize";
              "BuildingArea"; "YearBuilt"; "Propertycount"]
             ["Type"; "Method"; "Regionname"; "CouncilArea"]
             int_of_None eq_refl eq_refl eq_refl eq_refl eq_refl).
  reflexivity.
Defined.

Lemma empty_prediction_is_reported_witness :
  res (predict_price (pipeline []) (make_input_data (@form_of BrowserWidgets submitted)) None) =
    Ok None.
Proof.
  exact (proj1 (@empty_prediction_is_reported (pipeline [])
                  (make_input_data (@form_of BrowserWidgets submitted)) None eq_refl)).
Defined.

Lemma completed_display_is_consistent_witness :
  exists a1 a2 a3 fig,
    metrics (out (show_predictions (trained_models "Linear Regression")
                    (make_input_data (@form_of BrowserWidgets submitted)) None)) =
      [ ("Prediksi Regresi Linear", a1);
        ("Prediksi Regresi Polinomial", a2);
        ("Prediksi Model Terbaik (" ++ "Linear Regression" ++ ")", a3) ] /\
    (a3 = a1 \/ a3 = a2) /\
    In (Show (St_pyplot fig))
       (out (show_predictions (trained_models "Linear Regression")
               (make_input_data (@form_of BrowserWidgets submitted)) None)) /\
    map (fun b => fst (fst b)) (fig_bars fig) =
      ["Regresi Linear"; "Regresi Polinomial"] /\
    map snd (fig_texts fig) = [a1; a2].
Proof.
  apply (@completed_display_is_consistent (trained_models "Linear Regression")
           (make_input_data (@form_of BrowserWidgets submitted)) None).
  reflexivity.
Defined.
